(** * torchtitan/parallelisms/parallelize_llama.py

    A shallow embedding of the orchestration logic of
    [parallelize_llama.py]: the activation-checkpoint policies
    ([checkpoint_wrapper]), the manual and traced pipeline partitioners
    ([apply_pipeline_parallelism], [TransformerChunk]), the schedule
    builder ([build_pipeline_schedule]) and the SPMD entry point
    ([parallelize_llama]).

    Python integers are [Z]; strings are [string]; dictionaries and sets
    are stdpp's [gmap] and [gset]; exceptions are the [Raise] branch of
    [result].  Calls into torch and pippy are recorded as data (which
    wrapper or plan was applied to which module), never executed. *)

From Stdlib Require Import ZArith String Ascii DecimalString DecimalZ DecimalPos Lia.
From stdpp Require Import base strings gmap list numbers.

Local Open Scope Z_scope.

(** ** Python primitives *)

Module Py.

Inductive exn : Set :=
| AssertionError
| NotImplementedError
| ZeroDivisionError
| KeyError
| IndexError
| ValueError
| RuntimeError.

Inductive result (A : Type) : Type :=
| Ok (a : A)
| Raise (e : exn).
Global Arguments Ok {A} a.
Global Arguments Raise {A} e.

Definition bind {A B} (r : result A) (k : A → result B) : result B :=
  match r with
  | Ok a => k a
  | Raise e => Raise e
  end.

(** [assert cond] *)
Definition assert (cond : bool) : result unit :=
  if cond then Ok tt else Raise AssertionError.

(** [a // b] on ints: the floor quotient, [ZeroDivisionError] on [b = 0].
    [Z.div] rounds towards minus infinity like Python. *)
Definition floordiv (a b : Z) : result Z :=
  if bool_decide (b = 0) then Raise ZeroDivisionError else Ok (a `div` b).

(** [range(n)] *)
Definition range (n : Z) : list Z := seqZ 0 n.

(** [range(a, b)] *)
Definition range2 (a b : Z) : list Z := seqZ a (b - a).

(** [f"{n}"] for an int [n] *)
Definition str (n : Z) : string := NilEmpty.string_of_int (Z.to_int n).

Definition is_digit (c : ascii) : bool :=
  let n := N_of_ascii c in (48 <=? n)%N && (n <=? 57)%N.

(** [s.isdigit()], on ASCII strings: non-empty and every character a
    decimal digit. *)
Definition isdigit (s : string) : bool :=
  match s with
  | EmptyString => false
  | _ => forallb is_digit (list_ascii_of_string s)
  end.

(** [int(s)] on an optional minus sign followed by ASCII digits; every
    other string is a [ValueError] here (Python also accepts blanks, a
    plus sign and underscores, which no caller in this file produces). *)
Definition int (s : string) : result Z :=
  let digits := match s with String "-" r => r | _ => s end in
  if isdigit digits then
    match NilEmpty.int_of_string s with
    | Some d => Ok (Z.of_int d)
    | None => Raise ValueError
    end
  else Raise ValueError.

(** [sub in s] for strings *)
Fixpoint contains (sub s : string) : bool :=
  String.prefix sub s ||
  match s with
  | EmptyString => false
  | String _ r => contains sub r
  end.

(** [s.split(sep)[-1]] for a one-character separator: what follows the
    last separator, [cur] being the field read so far. *)
Fixpoint last_field (sep : ascii) (cur s : string) : string :=
  match s with
  | EmptyString => cur
  | String c r =>
      if Ascii.eqb c sep then last_field sep EmptyString r
      else last_field sep (cur +:+ String c EmptyString) r
  end.

(** [x in l] for a list of strings *)
Definition mem (x : string) (l : list string) : bool := bool_decide (x ∈ l).

(** [d.setdefault(k, v)] *)
Definition setdefault (k : string) (v : Z) (d : gmap string Z) : gmap string Z :=
  match d !! k with
  | Some _ => d
  | None => <[k := v]> d
  end.

(** [d[k]] on a [defaultdict(int)] *)
Definition getitem_default (d : gmap string Z) (k : string) : Z :=
  default 0 (d !! k).

End Py.
Import Py.

Global Instance result_ret : MRet result := λ A a, Ok a.
Global Instance result_bind : MBind result := λ A B k r, Py.bind r k.

(** ** Configuration *)

Record Training := {
  batch_size : Z;
  seq_len : Z;
  fp8_linear : string;
}.

Record ModelSection := {
  norm_type : string;
}.

Record ActivationCheckpoint := {
  mode : string;
  selective_ac_option : string;
}.

Record Experimental := {
  pipeline_parallel_split_mode : string;
  pipeline_parallel_schedule : string;
}.

Record JobConfig := {
  training : Training;
  model : ModelSection;
  activation_checkpoint : ActivationCheckpoint;
  experimental : Experimental;
}.

(** [parallel_dims]: the axis sizes, and the enabled flags, which the
    class computes outside this file and which are taken as given here. *)
Record ParallelDims := {
  dp : Z;
  tp : Z;
  pp : Z;
  dp_enabled : bool;
  tp_enabled : bool;
  pp_enabled : bool;
  loss_parallel_enabled : bool;
}.

(** [model_config], read by attribute *)
Module ModelConfig.
Record t := {
  vocab_size : Z;
  dim : Z;
}.
End ModelConfig.

(** ** Device meshes *)

Record MeshDim := {
  dim_name : string;
  dim_size : Z;
  dim_rank : Z;
}.

(** A mesh as one process sees it: its named axes, each with its size and
    the local rank of the process on it. *)
Definition DeviceMesh := list MeshDim.

(** [mesh[name]] *)
Definition mesh_getitem (mesh : DeviceMesh) (name : string) : result DeviceMesh :=
  match List.find (λ d, bool_decide (dim_name d = name)) mesh with
  | Some d => Ok [d]
  | None => Raise KeyError
  end.

Definition mesh_dim_names (mesh : DeviceMesh) : list string := dim_name <$> mesh.

Definition ndim (mesh : DeviceMesh) : Z := Z.of_nat (length mesh).

(** [mesh.size()] *)
Definition mesh_size (mesh : DeviceMesh) : Z :=
  foldr (λ d acc, dim_size d * acc) 1 mesh.

(** [mesh.get_local_rank()], defined on one-dimensional meshes *)
Definition get_local_rank (mesh : DeviceMesh) : result Z :=
  match mesh with
  | [d] => Ok (dim_rank d)
  | _ => Raise RuntimeError
  end.

(** ** Modules *)

Inductive Placement : Set :=
| Replicate
| Shard (d : Z).

(** The parallel styles of a sharding plan; [fp8] tells the float8 variant
    of the row-wise and column-wise styles from the standard one. *)
Inductive ParallelStyle : Set :=
| RowwiseParallel (fp8 : bool) (input_layouts output_layouts : option Placement)
    (use_local_output : bool)
| ColwiseParallel (fp8 : bool) (input_layouts output_layouts : option Placement)
    (use_local_output : bool)
| SequenceParallel
| PrepareModuleInput (input_layouts desired_input_layouts : list (option Placement)).

Definition Plan := list (string * ParallelStyle).

(** The context function handed to the checkpoint wrapper; the only one
    this file builds is [selective_checkpointing_context_fn]. *)
Inductive ContextFn : Set :=
| SelectiveCheckpointingContextFn.

Inductive DType : Set := int64 | float32.

Record MixedPrecisionPolicy := {
  param_dtype : DType;
  reduce_dtype : DType;
}.

(** What a library call has put around a module, outermost first. *)
Inductive Wrapper :=
| CheckpointWrapper (context_fn : option ContextFn)
| FSDP (mesh : DeviceMesh) (mp_policy : MixedPrecisionPolicy)
    (reshard_after_forward : bool).

Record Attention := {
  n_heads : Z;
  n_kv_heads : Z;
}.

Record TransformerBlock := {
  attention : Attention;
  (** the plans [parallelize_module] applied, latest first *)
  block_plans : list (DeviceMesh * Plan);
  block_wrappers : list Wrapper;
}.

(** A leaf submodule (embedding, norm, output projection), by its name. *)
Record Leaf := {
  fqn : string;
}.

(** The model: [Transformer.t]. *)
Module Transformer.
Record t := {
  vocab_size : Z;
  tok_embeddings : Leaf;
  layers : list (string * TransformerBlock);
  norm : Leaf;
  output : Leaf;
  root_plans : list (DeviceMesh * Plan);
  root_wrappers : list Wrapper;
}.
End Transformer.

Global Instance exn_eq_dec : EqDecision exn.
Proof. solve_decision. Defined.
Global Instance result_eq_dec {A} `{EqDecision A} : EqDecision (result A).
Proof. solve_decision. Defined.
Global Instance MeshDim_eq_dec : EqDecision MeshDim.
Proof. solve_decision. Defined.
Global Instance Placement_eq_dec : EqDecision Placement.
Proof. solve_decision. Defined.
Global Instance ParallelStyle_eq_dec : EqDecision ParallelStyle.
Proof. solve_decision. Defined.
Global Instance ContextFn_eq_dec : EqDecision ContextFn.
Proof. solve_decision. Defined.
Global Instance DType_eq_dec : EqDecision DType.
Proof. solve_decision. Defined.
Global Instance MixedPrecisionPolicy_eq_dec : EqDecision MixedPrecisionPolicy.
Proof. solve_decision. Defined.
Global Instance Wrapper_eq_dec : EqDecision Wrapper.
Proof. solve_decision. Defined.
Global Instance Attention_eq_dec : EqDecision Attention.
Proof. solve_decision. Defined.
Global Instance TransformerBlock_eq_dec : EqDecision TransformerBlock.
Proof. solve_decision. Defined.

(** ** Activation checkpointing *)

Definition aten_mm_default : string := "aten.mm.default".
Definition aten_scaled_dot_product_efficient_attention_default : string :=
  "aten._scaled_dot_product_efficient_attention.default".
Definition aten_scaled_dot_product_flash_attention_default : string :=
  "aten._scaled_dot_product_flash_attention.default".
Definition c10d_functional_reduce_scatter_tensor_default : string :=
  "_c10d_functional.reduce_scatter_tensor.default".

(** Operator overloads are identified by their qualified names. *)
Definition no_recompute_list : gset string :=
  {[ aten_mm_default;
     aten_scaled_dot_product_efficient_attention_default;
     aten_scaled_dot_product_flash_attention_default;
     c10d_functional_reduce_scatter_tensor_default ]}.

(** [_custom_policy(mode, func)], closed over [meta] in the source: the
    decision (save the output or not) and [meta] after the call. *)
Definition _custom_policy (meta : gmap string Z) (mode func : string)
  : bool * gmap string Z :=
  let mm_count_key := mode +:+ "_mm_count" in
  let meta :=
    if bool_decide (func = aten_mm_default)
    then <[mm_count_key := getitem_default meta mm_count_key + 1]> meta
    else meta in
  (bool_decide (func ∈ no_recompute_list) &&
   negb (bool_decide (func = aten_mm_default) &&
         bool_decide (getitem_default meta mm_count_key `mod` 2 = 0)),
   meta).

(** The calls a checkpoint context makes to its policy, one per dispatched
    operator [(mode, func)] in order, and the decisions they return. *)
Fixpoint policy_decisions (meta : gmap string Z) (calls : list (string * string))
  : list bool :=
  match calls with
  | [] => []
  | (mode, func) :: rest =>
      let '(save, meta') := _custom_policy meta mode func in
      save :: policy_decisions meta' rest
  end.

(** [selective_checkpointing_context_fn()]: a fresh [meta] for every
    context, that is for every pass through the wrapped block. *)
Definition selective_checkpointing_context_fn (calls : list (string * string))
  : list bool :=
  policy_decisions ∅ calls.

(** [ptd_checkpoint_wrapper(module, ..., context_fn=...)] *)
Definition ptd_checkpoint_wrapper (module : TransformerBlock)
    (context_fn : option ContextFn) : TransformerBlock :=
  {| attention := attention module;
     block_plans := block_plans module;
     block_wrappers := CheckpointWrapper context_fn :: block_wrappers module |}.

(** [checkpoint_wrapper(module, config)]; [attrs] is
    [checkpoint_wrapper.__dict__], where the function keeps [_count]. *)
Definition checkpoint_wrapper (module : TransformerBlock)
    (config : ActivationCheckpoint) (attrs : gmap string Z)
  : result TransformerBlock * gmap string Z :=
  if bool_decide (mode config = "selective") &&
     bool_decide (selective_ac_option config = "op") then
    (Ok (ptd_checkpoint_wrapper module (Some SelectiveCheckpointingContextFn)),
     attrs)
  else if bool_decide (mode config = "full") then
    (Ok (ptd_checkpoint_wrapper module None), attrs)
  else if bool_decide (mode config = "selective") &&
          isdigit (selective_ac_option config) then
    match int (selective_ac_option config) with
    | Raise e => (Raise e, attrs)
    | Ok every_x_layer =>
        if negb (0 <=? every_x_layer) then (Raise AssertionError, attrs)
        else
          let attrs := setdefault "_count" 0 attrs in
          let attrs := <["_count" := (attrs !!! "_count") + 1]> attrs in
          if bool_decide (every_x_layer = 0) ||
             bool_decide ((attrs !!! "_count") `mod` every_x_layer = 0)
          then (Ok (ptd_checkpoint_wrapper module None), attrs)
          else (Ok module, attrs)
    end
  else (Raise NotImplementedError, attrs).

(** ** Tensor and data parallelism *)

Definition StyleClass := option Placement → option Placement → bool → ParallelStyle.

(** [get_tp_parallel_strategy(job_config)]: the row-wise and column-wise
    classes, in that order. *)
Definition get_tp_parallel_strategy (job_config : JobConfig)
  : StyleClass * StyleClass :=
  if bool_decide (fp8_linear (training job_config) = "dynamic")
  then (RowwiseParallel true, ColwiseParallel true)
  else (RowwiseParallel false, ColwiseParallel false).

(** [parallelize_module] on the root model and on a block *)
Definition parallelize_module_root (m : Transformer.t) (device_mesh : DeviceMesh)
    (parallelize_plan : Plan) : Transformer.t :=
  {| Transformer.vocab_size := Transformer.vocab_size m;
     Transformer.tok_embeddings := Transformer.tok_embeddings m;
     Transformer.layers := Transformer.layers m;
     Transformer.norm := Transformer.norm m;
     Transformer.output := Transformer.output m;
     Transformer.root_plans := (device_mesh, parallelize_plan) :: Transformer.root_plans m;
     Transformer.root_wrappers := Transformer.root_wrappers m |}.

Definition parallelize_module (module : TransformerBlock)
    (device_mesh : DeviceMesh) (parallelize_plan : Plan) : TransformerBlock :=
  {| attention := attention module;
     block_plans := (device_mesh, parallelize_plan) :: block_plans module;
     block_wrappers := block_wrappers module |}.

(** [fully_shard] on a block and on the root model *)
Definition fully_shard (module : TransformerBlock) (mesh : DeviceMesh)
    (mp_policy : MixedPrecisionPolicy) (reshard_after_forward : bool)
  : TransformerBlock :=
  {| attention := attention module;
     block_plans := block_plans module;
     block_wrappers :=
       FSDP mesh mp_policy reshard_after_forward :: block_wrappers module |}.

Definition fully_shard_root (m : Transformer.t) (mesh : DeviceMesh)
    (mp_policy : MixedPrecisionPolicy) : Transformer.t :=
  {| Transformer.vocab_size := Transformer.vocab_size m;
     Transformer.tok_embeddings := Transformer.tok_embeddings m;
     Transformer.layers := Transformer.layers m;
     Transformer.norm := Transformer.norm m;
     Transformer.output := Transformer.output m;
     Transformer.root_plans := Transformer.root_plans m;
     Transformer.root_wrappers := FSDP mesh mp_policy true :: Transformer.root_wrappers m |}.

Definition set_layers (m : Transformer.t) (ls : list (string * TransformerBlock))
  : Transformer.t :=
  {| Transformer.vocab_size := Transformer.vocab_size m;
     Transformer.tok_embeddings := Transformer.tok_embeddings m;
     Transformer.layers := ls;
     Transformer.norm := Transformer.norm m;
     Transformer.output := Transformer.output m;
     Transformer.root_plans := Transformer.root_plans m;
     Transformer.root_wrappers := Transformer.root_wrappers m |}.

Definition set_n_heads (b : TransformerBlock) (h : Z) : TransformerBlock :=
  {| attention := {| n_heads := h; n_kv_heads := n_kv_heads (attention b) |};
     block_plans := block_plans b;
     block_wrappers := block_wrappers b |}.

Definition set_n_kv_heads (b : TransformerBlock) (h : Z) : TransformerBlock :=
  {| attention := {| n_heads := n_heads (attention b); n_kv_heads := h |};
     block_plans := block_plans b;
     block_wrappers := block_wrappers b |}.

(** [for layer_name, transformer_block in model.layers.named_children()]:
    the body runs on each block in order with the state [s] threaded; it
    gives the block as it leaves it, also when it raises, and the loop
    stops at the first exception with the blocks changed so far. *)
Fixpoint for_named_children {S : Type}
    (body : TransformerBlock → S → result unit * TransformerBlock * S)
    (ls : list (string * TransformerBlock)) (s : S)
  : result unit * list (string * TransformerBlock) * S :=
  match ls with
  | [] => (Ok tt, [], s)
  | (layer_name, transformer_block) :: rest =>
      match body transformer_block s with
      | (Ok _, b', s') =>
          let '(r, rest', s'') := for_named_children body rest s' in
          (r, (layer_name, b') :: rest', s'')
      | (Raise e, b', s') => (Raise e, (layer_name, b') :: rest, s')
      end
  end.

Definition layer_plan (row_parallel_strategy col_parallel_strategy : StyleClass)
  : Plan :=
  [ ("attention", PrepareModuleInput [Some (Shard 1); None] [Some Replicate; None]);
    ("attention.wq", col_parallel_strategy None None true);
    ("attention.wk", col_parallel_strategy None None true);
    ("attention.wv", col_parallel_strategy None None true);
    ("attention.wo", row_parallel_strategy None (Some (Shard 1)) true);
    ("attention_norm", SequenceParallel);
    ("feed_forward", PrepareModuleInput [Some (Shard 1)] [Some Replicate]);
    ("feed_forward.w1", col_parallel_strategy None None true);
    ("feed_forward.w2", row_parallel_strategy None (Some (Shard 1)) true);
    ("feed_forward.w3", col_parallel_strategy None None true);
    ("ffn_norm", SequenceParallel) ].

(** The body of the tensor-parallel loop over the blocks. *)
Definition tp_block (tp_mesh : DeviceMesh)
    (row_parallel_strategy col_parallel_strategy : StyleClass)
    (transformer_block : TransformerBlock) (s : unit)
  : result unit * TransformerBlock * unit :=
  match floordiv (n_heads (attention transformer_block)) (mesh_size tp_mesh) with
  | Raise e => (Raise e, transformer_block, s)
  | Ok h =>
      let b1 := set_n_heads transformer_block h in
      match floordiv (n_kv_heads (attention b1)) (mesh_size tp_mesh) with
      | Raise e => (Raise e, b1, s)
      | Ok kv =>
          let b2 := set_n_kv_heads b1 kv in
          (Ok tt,
           parallelize_module b2 tp_mesh
             (layer_plan row_parallel_strategy col_parallel_strategy),
           s)
      end
  end.

(** The [if parallel_dims.tp_enabled:] branch: the outcome and the model
    object as the branch leaves it. *)
Definition tp_branch (m : Transformer.t) (world_mesh : DeviceMesh)
    (parallel_dims : ParallelDims) (job_config : JobConfig)
  : result unit * Transformer.t :=
  if bool_decide (norm_type (model job_config) = "fused_rmsnorm")
  then (Raise NotImplementedError, m)
  else
    match mesh_getitem world_mesh "tp" with
    | Raise e => (Raise e, m)
    | Ok tp_mesh =>
        let '(row_parallel_strategy, col_parallel_strategy) :=
          get_tp_parallel_strategy job_config in
        let loss_parallel := loss_parallel_enabled parallel_dims in
        let m :=
          parallelize_module_root m tp_mesh
            [ ("tok_embeddings",
               RowwiseParallel false (Some Replicate) (Some (Shard 1)) true);
              ("output",
               col_parallel_strategy (Some (Shard 1))
                 (Some (if loss_parallel then Shard (-1) else Replicate))
                 (negb loss_parallel));
              ("norm", SequenceParallel) ] in
        let '(r, ls, _) :=
          for_named_children
            (tp_block tp_mesh row_parallel_strategy col_parallel_strategy)
            (Transformer.layers m) tt in
        (r, set_layers m ls)
    end.

(** The body of the data-parallel loop over the blocks; the state is
    [checkpoint_wrapper.__dict__]. *)
Definition dp_block (dp_mesh : DeviceMesh) (mp_policy : MixedPrecisionPolicy)
    (job_config : JobConfig)
    (transformer_block : TransformerBlock) (attrs : gmap string Z)
  : result unit * TransformerBlock * gmap string Z :=
  let '(r, attrs) :=
    if bool_decide (mode (activation_checkpoint job_config) = "full") ||
       bool_decide (mode (activation_checkpoint job_config) = "selective")
    then checkpoint_wrapper transformer_block
           (activation_checkpoint job_config) attrs
    else (Ok transformer_block, attrs) in
  match r with
  | Raise e => (Raise e, transformer_block, attrs)
  | Ok wrapped =>
      let reshard_after_forward := true in
      (Ok tt, fully_shard wrapped dp_mesh mp_policy reshard_after_forward, attrs)
  end.

(** The [if parallel_dims.dp_enabled:] branch. *)
Definition dp_branch (m : Transformer.t) (world_mesh : DeviceMesh)
    (job_config : JobConfig) (attrs : gmap string Z)
  : result unit * Transformer.t * gmap string Z :=
  match (if bool_decide (1 < ndim world_mesh)
         then mesh_getitem world_mesh "dp" else Ok world_mesh) with
  | Raise e => (Raise e, m, attrs)
  | Ok dp_mesh =>
      if negb (bool_decide (mesh_dim_names dp_mesh = ["dp"]))
      then (Raise AssertionError, m, attrs)
      else
        let mp_policy := {| param_dtype := float32; reduce_dtype := float32 |} in
        match for_named_children (dp_block dp_mesh mp_policy job_config)
                (Transformer.layers m) attrs with
        | (Raise e, ls, attrs) => (Raise e, set_layers m ls, attrs)
        | (Ok _, ls, attrs) =>
            (Ok tt, fully_shard_root (set_layers m ls) dp_mesh mp_policy, attrs)
        end
  end.

(** [parallelize_llama(model, world_mesh, parallel_dims, job_config)].
    The model is one object changed in place: the result holds what the
    call returns or raises, the model object as the call leaves it, and
    [checkpoint_wrapper.__dict__] as the call leaves it. *)
Definition parallelize_llama (m : Transformer.t) (world_mesh : DeviceMesh)
    (parallel_dims : ParallelDims) (job_config : JobConfig)
    (attrs : gmap string Z)
  : result Transformer.t * Transformer.t * gmap string Z :=
  let '(r1, m) :=
    if tp_enabled parallel_dims
    then tp_branch m world_mesh parallel_dims job_config
    else (Ok tt, m) in
  match r1 with
  | Raise e => (Raise e, m, attrs)
  | Ok _ =>
      let '(r2, m, attrs) :=
        if dp_enabled parallel_dims
        then dp_branch m world_mesh job_config attrs
        else (Ok tt, m, attrs) in
      match r2 with
      | Raise e => (Raise e, m, attrs)
      | Ok _ => (Ok m, m, attrs)
      end
  end.

(** ** Pipeline parallelism *)

Record Tensor := {
  shape : list Z;
  dtype : DType;
  tensor_device : string;
}.

(** [torch.randint(high, size, dtype=..., device=...)]; the values drawn
    are not modelled. *)
Definition torch_randint (high : Z) (size : list Z) (dt : DType)
    (device : string) : Tensor :=
  {| shape := size; dtype := dt; tensor_device := device |}.

(** [torch.empty(size, dtype=..., device=...)] *)
Definition torch_empty (size : list Z) (dt : DType) (device : string) : Tensor :=
  {| shape := size; dtype := dt; tensor_device := device |}.

(** [t.chunk(chunks)[0]], kept as the call it is. *)
Record FirstChunk := {
  chunk_of : Tensor;
  chunks : Z;
}.

(** [module_list[i]] *)
Definition modulelist_getitem (ls : list (string * TransformerBlock)) (i : Z)
  : result TransformerBlock :=
  let n := Z.of_nat (length ls) in
  if (- n <=? i) && (i <? n) then
    match ls !! Z.to_nat (if i <? 0 then i + n else i) with
    | Some (_, b) => Ok b
    | None => Raise IndexError
    end
  else Raise IndexError.

(** [module_dict[k] = v] *)
Fixpoint moduledict_setitem (k : string) (v : TransformerBlock)
    (d : list (string * TransformerBlock)) : list (string * TransformerBlock) :=
  match d with
  | [] => [(k, v)]
  | (k', v') :: rest =>
      if bool_decide (k' = k) then (k, v) :: rest
      else (k', v') :: moduledict_setitem k v rest
  end.

Module TransformerChunk.

Record t := {
  tok_embeddings : option Leaf;
  input_seqlen : Z;
  layers : list (string * TransformerBlock);
  norm : option Leaf;
  output : option Leaf;
}.

(** The loop of [__init__] that fills [self.layers]. *)
Fixpoint fill_layers (orig_model : Transformer.t)
    (this_stage_layer_names : list string)
    (self_layers : list (string * TransformerBlock))
  : result (list (string * TransformerBlock)) :=
  match this_stage_layer_names with
  | [] => Ok self_layers
  | name :: rest =>
      if contains "layers." name then
        let idx := last_field "." "" name in
        i ← int idx;
        b ← modulelist_getitem (Transformer.layers orig_model) i;
        fill_layers orig_model rest (moduledict_setitem idx b self_layers)
      else fill_layers orig_model rest self_layers
  end.

(** [TransformerChunk(orig_model, this_stage_layer_names, device,
    input_seqlen)]; [freqs_cis] is computed by the model and left out. *)
Definition __init__ (orig_model : Transformer.t)
    (this_stage_layer_names : list string) (device : string)
    (input_seqlen : Z) : result t :=
  let self_tok_embeddings :=
    if mem "tok_embeddings" this_stage_layer_names
    then Some (Transformer.tok_embeddings orig_model) else None in
  self_layers ← fill_layers orig_model this_stage_layer_names [];
  let self_norm :=
    if mem "norm" this_stage_layer_names
    then Some (Transformer.norm orig_model) else None in
  let self_output :=
    if mem "output" this_stage_layer_names
    then Some (Transformer.output orig_model) else None in
  Ok {| tok_embeddings := self_tok_embeddings;
        input_seqlen := input_seqlen;
        layers := self_layers;
        norm := self_norm;
        output := self_output |}.

(** [forward(self, input)].  What the submodules compute is left open:
    [call_leaf] runs the embedding, the norm or the output projection,
    [call_layer] a block on a hidden state with
    [self.freqs_cis[0 : self.input_seqlen]], standing here as the length
    of the slice, and [to_float] is the cast [.float()]; [out] is the
    variable [output] of the source. *)
Definition forward {A : Type} (call_leaf : Leaf → A → A)
    (call_layer : TransformerBlock → Z → A → A) (to_float : A → A)
    (self : t) (input : A) : A :=
  let h :=
    match tok_embeddings self with
    | Some emb => call_leaf emb input
    | None => input
    end in
  let freqs_cis := input_seqlen self in
  let h := foldl (λ h nl, call_layer nl.2 freqs_cis h) h (layers self) in
  let out := h in
  let '(h, out) :=
    match norm self with
    | Some n => (call_leaf n h, call_leaf n h)
    | None => (h, out)
    end in
  match output self with
  | Some proj => to_float (call_leaf proj h)
  | None => out
  end.

End TransformerChunk.

Record ManualPipelineStage := {
  manual_module : TransformerChunk.t;
  manual_stage_index : Z;
  manual_num_stages : Z;
  manual_device : string;
  manual_chunks : Z;
  input_args : FirstChunk;
  output_args : FirstChunk;
  manual_group : string;
}.

Inductive SplitPoint : Set := BEGINNING | END.

(** What [pipeline(model, num_stages, example_args=..., split_spec=...)]
    was called with; the traced graph itself belongs to the tracer. *)
Record Pipe := {
  pipe_model : Transformer.t;
  pipe_num_stages : Z;
  example_args : Tensor;
  split_spec : gmap string SplitPoint;
}.

Record TracedPipelineStage := {
  traced_pipe : Pipe;
  traced_stage_index : Z;
  traced_device : string;
}.

Inductive Stage :=
| ManualStage (s : ManualPipelineStage)
| TracedStage (s : TracedPipelineStage).

(** The stage-local model returned next to the stage. *)
Inductive StageModel :=
| ChunkModel (c : TransformerChunk.t)
| StageModuleOf (p : Pipe) (stage_idx : Z).

(** Lines 259 to 268 of the source: the names of the layers of the stage
    of [pp_rank], with the assertions on the first and the last rank. *)
Definition stage_layer_names (layers_per_rank layer_offset pp_rank pp_size : Z)
  : result (list string) :=
  let this_stage_layer_names :=
    (λ i, "layers." +:+ str (i + layer_offset)) <$> range layers_per_rank in
  if bool_decide (pp_rank = 0) then
    let this_stage_layer_names := "tok_embeddings" :: this_stage_layer_names in
    _ ← assert (mem "layers.0" this_stage_layer_names);
    Ok this_stage_layer_names
  else if bool_decide (pp_rank = pp_size - 1) then
    let this_stage_layer_names := this_stage_layer_names ++ ["norm"] in
    let this_stage_layer_names := this_stage_layer_names ++ ["output"] in
    _ ← assert (mem "layers.1" this_stage_layer_names);
    Ok this_stage_layer_names
  else Ok this_stage_layer_names.

(** Lines 280 to 312 of the source: the example input and output of the
    stage of [pp_rank], from the declared shapes. *)
Definition stage_example_tensors (pp_rank : Z) (parallel_dims : ParallelDims)
    (job_config : JobConfig) (device : string) (model_config : ModelConfig.t)
  : result (Tensor * Tensor) :=
  if bool_decide (pp_rank = 0) then
    let input_shape :=
      [batch_size (training job_config); seq_len (training job_config)] in
    let input :=
      torch_randint (ModelConfig.vocab_size model_config) input_shape int64
        device in
    local_seq ← floordiv (seq_len (training job_config)) (tp parallel_dims);
    let output_shape :=
      [batch_size (training job_config); local_seq;
       ModelConfig.dim model_config] in
    let output := torch_empty output_shape float32 device in
    Ok (input, output)
  else
    local_seq ← floordiv (seq_len (training job_config)) (tp parallel_dims);
    let input_shape :=
      [batch_size (training job_config); local_seq;
       ModelConfig.dim model_config] in
    let input :=
      torch_randint (ModelConfig.vocab_size model_config) input_shape float32
        device in
    local_seq' ← floordiv (seq_len (training job_config)) (tp parallel_dims);
    let output_shape :=
      [batch_size (training job_config); local_seq';
       ModelConfig.dim model_config] in
    let output := torch_empty output_shape float32 device in
    Ok (input, output).

(** [apply_pipeline_parallelism_manual(model, world_mesh, parallel_dims,
    job_config, device, model_config)] *)
Definition apply_pipeline_parallelism_manual (m : Transformer.t)
    (world_mesh : DeviceMesh) (parallel_dims : ParallelDims)
    (job_config : JobConfig) (device : string) (model_config : ModelConfig.t)
  : result (Stage * StageModel) :=
  pp_mesh ← mesh_getitem world_mesh "pp";
  pp_rank ← get_local_rank pp_mesh;
  let pp_size := mesh_size pp_mesh in
  let microbatches := pp parallel_dims in
  let stage_idx := pp_rank in
  layers_per_rank ← floordiv (Z.of_nat (length (Transformer.layers m))) (pp parallel_dims);
  let layer_offset := layers_per_rank * pp_rank in
  this_stage_layer_names ←
    stage_layer_names layers_per_rank layer_offset pp_rank pp_size;
  let input_seqlen := 2048 in
  chunk ← TransformerChunk.__init__ m this_stage_layer_names device input_seqlen;
  '(input, output) ←
    stage_example_tensors pp_rank parallel_dims job_config device model_config;
  let stage :=
    {| manual_module := chunk;
       manual_stage_index := pp_rank;
       manual_num_stages := pp_size;
       manual_device := device;
       manual_chunks := microbatches;
       input_args := {| chunk_of := input; chunks := microbatches |};
       output_args := {| chunk_of := output; chunks := microbatches |};
       manual_group := "pp" |} in
  Ok (ManualStage stage, ChunkModel chunk).

(** [apply_pipeline_parallelism_tracer(...)] *)
Definition apply_pipeline_parallelism_tracer (m : Transformer.t)
    (world_mesh : DeviceMesh) (parallel_dims : ParallelDims)
    (job_config : JobConfig) (device : string) (model_config : ModelConfig.t)
  : result (Stage * StageModel) :=
  _ ← assert (pp_enabled parallel_dims);
  if bool_decide (norm_type (model job_config) = "fused_rmsnorm")
  then Raise NotImplementedError
  else
    pp_mesh ← mesh_getitem world_mesh "pp";
    pp_rank ← get_local_rank pp_mesh;
    stage_idx ← get_local_rank pp_mesh;
    layers_per_rank ← floordiv (Z.of_nat (length (Transformer.layers m))) (pp parallel_dims);
    let spec : gmap string SplitPoint :=
      foldl (λ d i, <["layers." +:+ str (i * layers_per_rank) := BEGINNING]> d)
        ∅ (range2 1 (pp parallel_dims)) in
    let input_shape :=
      [batch_size (training job_config); seq_len (training job_config)] in
    let input_ids := torch_randint (Transformer.vocab_size m) input_shape int64 "meta" in
    let pipe :=
      {| pipe_model := m;
         pipe_num_stages := pp parallel_dims;
         example_args := input_ids;
         split_spec := spec |} in
    let stage :=
      {| traced_pipe := pipe;
         traced_stage_index := pp_rank;
         traced_device := device |} in
    Ok (TracedStage stage, StageModuleOf pipe stage_idx).

(** [apply_pipeline_parallelism(...)] *)
Definition apply_pipeline_parallelism (m : Transformer.t)
    (world_mesh : DeviceMesh) (parallel_dims : ParallelDims)
    (job_config : JobConfig) (device : string) (model_config : ModelConfig.t)
  : result (Stage * StageModel) :=
  if bool_decide
       (pipeline_parallel_split_mode (experimental job_config) = "manual")
  then apply_pipeline_parallelism_manual m world_mesh parallel_dims job_config
         device model_config
  else if bool_decide
            (pipeline_parallel_split_mode (experimental job_config) = "tracer")
  then apply_pipeline_parallelism_tracer m world_mesh parallel_dims job_config
         device model_config
  else Raise NotImplementedError.

Inductive ScheduleClass : Set := Schedule1F1B | ScheduleGPipe.

Record Schedule (St L : Type) := {
  schedule_class : ScheduleClass;
  schedule_stage : St;
  n_microbatches : Z;
  loss_fn : L;
}.
Arguments schedule_class {St L} _.
Arguments schedule_stage {St L} _.
Arguments n_microbatches {St L} _.
Arguments loss_fn {St L} _.

(** [build_pipeline_schedule(job_config, parallel_dims, stage, loss_fn)] *)
Definition build_pipeline_schedule {St L : Type} (job_config : JobConfig)
    (parallel_dims : ParallelDims) (stage : St) (loss : L)
  : result (Schedule St L) :=
  sched_class ←
    (if bool_decide
          (pipeline_parallel_schedule (experimental job_config) = "1f1b")
     then Ok Schedule1F1B
     else if bool_decide
               (pipeline_parallel_schedule (experimental job_config) = "gpipe")
     then Ok ScheduleGPipe
     else Raise NotImplementedError);
  Ok {| schedule_class := sched_class;
        schedule_stage := stage;
        n_microbatches := pp parallel_dims;
        loss_fn := loss |}.

(** ** Reading the outcome of a pass *)

(** Whether a block carries a plain recomputation wrapper. *)
Definition checkpointed (b : TransformerBlock) : bool :=
  bool_decide (CheckpointWrapper None ∈ block_wrappers b).

(** The rank, counted from one, of the call at position [i] among the
    calls of [calls] up to it that are matrix multiplications dispatched
    in mode [mode]. *)
Definition mm_occurrence (calls : list (string * string)) (i : nat)
    (mode : string) : Z :=
  Z.of_nat
    (length (filter (λ c, c = (mode, aten_mm_default)) (take (S i) calls))).

(** ** Sample inputs *)

Definition sample_block (heads : Z) : TransformerBlock :=
  {| attention := {| n_heads := heads; n_kv_heads := heads |};
     block_plans := [];
     block_wrappers := [] |}.

Global Instance TransformerBlock_inhabited : Inhabited TransformerBlock :=
  populate (sample_block 0).

(** A model of [n_layers] blocks named as a module list names them. *)
Definition sample_model (n_layers heads : Z) : Transformer.t :=
  {| Transformer.vocab_size := 32000;
     Transformer.tok_embeddings := {| fqn := "tok_embeddings" |};
     Transformer.layers := (λ i, (str i, sample_block heads)) <$> range n_layers;
     Transformer.norm := {| fqn := "norm" |};
     Transformer.output := {| fqn := "output" |};
     Transformer.root_plans := [];
     Transformer.root_wrappers := [] |}.

Definition sample_mesh (name : string) (size rank : Z) : DeviceMesh :=
  [ {| dim_name := name; dim_size := size; dim_rank := rank |} ].

Definition sample_dims (dp_size tp_size pp_size : Z) : ParallelDims :=
  {| dp := dp_size; tp := tp_size; pp := pp_size;
     dp_enabled := bool_decide (1 < dp_size);
     tp_enabled := bool_decide (1 < tp_size);
     pp_enabled := bool_decide (1 < pp_size);
     loss_parallel_enabled := false |}.

Definition sample_config (ac_mode ac_option split_mode schedule : string)
  : JobConfig :=
  {| training := {| batch_size := 8; seq_len := 2048; fp8_linear := "" |};
     model := {| norm_type := "rmsnorm" |};
     activation_checkpoint :=
       {| mode := ac_mode; selective_ac_option := ac_option |};
     experimental :=
       {| pipeline_parallel_split_mode := split_mode;
          pipeline_parallel_schedule := schedule |} |}.

Definition sample_model_config : ModelConfig.t :=
  {| ModelConfig.vocab_size := 32000; ModelConfig.dim := 256 |}.

(** The wrapped status of the blocks of a model, in order. *)
Definition wrapped_status (m : Transformer.t) : list bool :=
  (λ nb, checkpointed nb.2) <$> Transformer.layers m.

(** Two passes of [parallelize_llama] in one process, each over a model
    of five blocks, data parallelism on and a cadence of 2: the second
    pass starts from the function attributes the first one left. *)
Definition cadence_first_pass
  : result Transformer.t * Transformer.t * gmap string Z :=
  parallelize_llama (sample_model 5 32) (sample_mesh "dp" 2 0)
    (sample_dims 2 1 1) (sample_config "selective" "2" "manual" "1f1b") ∅.

Definition cadence_second_pass
  : result Transformer.t * Transformer.t * gmap string Z :=
  parallelize_llama (sample_model 5 32) (sample_mesh "dp" 2 0)
    (sample_dims 2 1 1) (sample_config "selective" "2" "manual" "1f1b")
    cadence_first_pass.2.

(** The names a chunk is built from: the embedding if [has_embedding],
    the layers [first] to [first + count - 1], the norm and the output
    projection if [has_head]. *)
Definition stage_names (has_embedding : bool) (first count : Z)
    (has_head : bool) : list string :=
  (if has_embedding then ["tok_embeddings"] else [])
  ++ ((λ j, "layers." +:+ str j) <$> seqZ first count)
  ++ (if has_head then ["norm"; "output"] else []).

(** Line 446 of the source: the mesh the data-parallel branch works
    on, [world_mesh["dp"] if world_mesh.ndim > 1 else world_mesh]. *)
Definition dp_mesh_of (world_mesh : DeviceMesh) : result DeviceMesh :=
  if bool_decide (1 < ndim world_mesh)
  then mesh_getitem world_mesh "dp" else Ok world_mesh.


(** Whether a style is one of the float8 classes. *)
Definition uses_float8 (style : ParallelStyle) : bool :=
  match style with
  | RowwiseParallel fp8 _ _ _ | ColwiseParallel fp8 _ _ _ => fp8
  | SequenceParallel | PrepareModuleInput _ _ => false
  end.

(** * Properties *)

(** ** Python primitives *)

Lemma bind_Ok {A B} (a : A) (k : A → result B) : (Ok a ≫= k) = k a.
Proof. reflexivity. Qed.

Lemma bind_Raise {A B} (e : exn) (k : A → result B) : (Raise e ≫= k) = Raise e.
Proof. reflexivity. Qed.

Lemma floordiv_Ok (a b : Z) : b ≠ 0 → floordiv a b = Ok (a `div` b).
Proof. intros Hb. unfold floordiv. by rewrite bool_decide_eq_false_2. Qed.

Lemma floordiv_inv (a b q : Z) : floordiv a b = Ok q → b ≠ 0 ∧ q = a `div` b.
Proof.
  unfold floordiv. case_bool_decide; [discriminate|].
  intros [= <-]. done.
Qed.

Lemma append_nil (b : string) : EmptyString +:+ b = b.
Proof. reflexivity. Qed.

Lemma append_cons (c : ascii) (a b : string) :
  String c a +:+ b = String c (a +:+ b).
Proof. reflexivity. Qed.

Lemma length_append (a b : string) :
  String.length (a +:+ b) = (String.length a + String.length b)%nat.
Proof.
  induction a as [|c a IH]; [done|].
  rewrite append_cons. simpl. by rewrite IH.
Qed.

Lemma append_inj_r (s1 s2 t : string) : s1 +:+ t = s2 +:+ t → s1 = s2.
Proof.
  revert s2. induction s1 as [|c s1 IH]; intros [|c' s2] H.
  - done.
  - apply (f_equal String.length) in H.
    rewrite append_nil, append_cons in H. simpl in H.
    rewrite length_append in H. lia.
  - apply (f_equal String.length) in H.
    rewrite append_nil, append_cons in H. simpl in H.
    rewrite length_append in H. lia.
  - rewrite !append_cons in H. injection H as -> H. f_equal. by apply IH.
Qed.

Lemma append_snoc (a b : string) (c : ascii) :
  (a +:+ String c EmptyString) +:+ b = a +:+ String c b.
Proof.
  induction a as [|c' a IH]; [done|].
  rewrite !append_cons. by rewrite IH.
Qed.

Lemma append_empty_r (a : string) : a +:+ EmptyString = a.
Proof.
  induction a as [|c a IH]; [done|].
  rewrite append_cons. by rewrite IH.
Qed.

Lemma is_digit_uint_of_char (c : ascii) (d : Decimal.uint) :
  is_digit c = true → ∃ d', uint_of_char c (Some d) = Some d'.
Proof.
  destruct c as [[] [] [] [] [] [] [] []]; try discriminate;
    intros _; eexists; reflexivity.
Qed.

Lemma is_digit_not_minus (c : ascii) : is_digit c = true → Ascii.eqb c "-" = false.
Proof. destruct c as [[] [] [] [] [] [] [] []]; try discriminate; done. Qed.

Lemma digits_uint_of_string (s : string) :
  forallb is_digit (list_ascii_of_string s) = true →
  ∃ d, NilEmpty.uint_of_string s = Some d.
Proof.
  induction s as [|c s IH]; simpl.
  - eauto.
  - intros [Hc Hs]%andb_prop. destruct (IH Hs) as [d ->].
    by apply is_digit_uint_of_char.
Qed.

Lemma string_of_uint_digits (u : Decimal.uint) :
  forallb is_digit (list_ascii_of_string (NilEmpty.string_of_uint u)) = true.
Proof. induction u; simpl; auto. Qed.

Lemma last_field_string_of_uint (u : Decimal.uint) (cur : string) :
  last_field "." cur (NilEmpty.string_of_uint u)
  = cur +:+ NilEmpty.string_of_uint u.
Proof.
  revert cur. induction u; intros cur; simpl;
    rewrite ?IHu, ?append_snoc, ?append_empty_r; done.
Qed.

(** A digit string is read by [int] as a natural number, without raising. *)
Lemma isdigit_int (s : string) :
  isdigit s = true → ∃ n, int s = Ok n ∧ 0 ≤ n.
Proof.
  destruct s as [|c s]; [discriminate|].
  intros Hd. unfold isdigit in Hd.
  destruct (digits_uint_of_string _ Hd) as [d Hu].
  simpl in Hd. apply andb_prop in Hd as [Hc Hs].
  exists (Z.of_int (Decimal.Pos d)). split.
  - unfold int.
    replace (match String c s with String "-" r => r | _ => String c s end)
      with (String c s)
      by (destruct c as [[] [] [] [] [] [] [] []]; try discriminate; done).
    replace (isdigit (String c s)) with true
      by (simpl; by rewrite Hc, Hs).
    unfold NilEmpty.int_of_string. rewrite (is_digit_not_minus c Hc), Hu. done.
  - simpl. unfold Z.of_uint. lia.
Qed.

(** What [str] prints for a natural number. *)
Lemma str_nonneg (n : Z) :
  0 ≤ n → ∃ u, u ≠ Decimal.Nil ∧ Z.to_int n = Decimal.Pos u
              ∧ str n = NilEmpty.string_of_uint u.
Proof.
  intros Hn. destruct n as [|p|p]; [| |lia].
  - exists (Decimal.D0 Decimal.Nil). done.
  - exists (Pos.to_uint p). split; [apply Unsigned.to_uint_nonnil|done].
Qed.

Lemma str_inj (a b : Z) : str a = str b → a = b.
Proof.
  unfold str. intros H. apply DecimalZ.to_int_inj.
  apply (f_equal NilEmpty.int_of_string) in H.
  rewrite !NilEmpty.isi in H. congruence.
Qed.

Lemma isdigit_str (n : Z) : 0 ≤ n → isdigit (str n) = true.
Proof.
  intros (u & Hnil & _ & ->)%str_nonneg.
  pose proof (string_of_uint_digits u) as Hd.
  destruct u; try done.
Qed.

Lemma int_str (n : Z) : 0 ≤ n → int (str n) = Ok n.
Proof.
  intros Hn. pose proof (isdigit_str n Hn) as Hd.
  destruct (str_nonneg n Hn) as (u & Hnil & Hu & Hs).
  unfold int.
  replace (match str n with String "-" r => r | _ => str n end) with (str n).
  - rewrite Hd. unfold str. rewrite NilEmpty.isi, DecimalZ.of_to. done.
  - rewrite Hs. destruct u; done.
Qed.

Lemma last_field_layer_name (n : Z) :
  0 ≤ n → last_field "." "" ("layers." +:+ str n) = str n.
Proof.
  intros (u & _ & _ & ->)%str_nonneg.
  rewrite !append_cons, append_nil. simpl.
  by rewrite last_field_string_of_uint.
Qed.

Lemma contains_layer_name (x : string) : contains "layers." ("layers." +:+ x) = true.
Proof.
  rewrite !append_cons, append_nil. simpl.
  replace (String.prefix "" x) with true by (by destruct x). done.
Qed.

(** ** The manual stage partitioner *)

Lemma layer_name_inj (a b : string) : "layers." +:+ a = "layers." +:+ b → a = b.
Proof. rewrite !append_cons, !append_nil. by intros [= ->]. Qed.

Lemma mem_snoc_ne (x y : string) (l : list string) :
  x ≠ y → mem x (l ++ [y]) = mem x l.
Proof.
  intros Hne. unfold mem. apply bool_decide_ext.
  rewrite elem_of_app, list_elem_of_singleton.
  split; [intros [?|?]; [done|congruence] | auto].
Qed.

(** Which layer names the list built for a stage holds. *)
Lemma mem_layer_names (j layers_per_rank layer_offset : Z) :
  mem ("layers." +:+ str j)
      ((λ i, "layers." +:+ str (i + layer_offset)) <$> range layers_per_rank)
  = bool_decide (layer_offset ≤ j < layer_offset + layers_per_rank).
Proof.
  unfold mem, range. apply bool_decide_ext.
  rewrite list_elem_of_fmap. split.
  - intros (i & Heq & Hi%elem_of_seqZ).
    apply layer_name_inj, str_inj in Heq. lia.
  - intros H. exists (j - layer_offset). split.
    + do 2 f_equal. lia.
    + apply elem_of_seqZ. lia.
Qed.

(** On the last of at least two ranks the assertion of [layers.1] passes
    only if the stage owns layer 1. *)
Lemma stage_layer_names_last (layers_per_rank layer_offset pp_rank pp_size : Z) :
  pp_rank ≠ 0 → pp_rank = pp_size - 1 →
  ¬ (layer_offset ≤ 1 < layer_offset + layers_per_rank) →
  stage_layer_names layers_per_rank layer_offset pp_rank pp_size
  = Raise AssertionError.
Proof.
  intros H0 Hlast Hout. unfold stage_layer_names.
  rewrite (bool_decide_eq_false_2 _ H0), (bool_decide_eq_true_2 _ Hlast).
  rewrite !mem_snoc_ne by discriminate.
  change "layers.1" with ("layers." +:+ str 1).
  rewrite mem_layer_names, (bool_decide_eq_false_2 _ Hout). done.
Qed.

Lemma stage_layer_names_first (layers_per_rank pp_size : Z) :
  stage_layer_names layers_per_rank (layers_per_rank * 0) 0 pp_size
  = if bool_decide (1 ≤ layers_per_rank)
    then Ok ("tok_embeddings" ::
             ((λ i, "layers." +:+ str (i + layers_per_rank * 0))
                <$> range layers_per_rank))
    else Raise AssertionError.
Proof.
  unfold stage_layer_names. rewrite bool_decide_eq_true_2 by done.
  unfold mem at 1.
  assert (Hmem : bool_decide
            ("layers.0" ∈ "tok_embeddings" ::
               ((λ i, "layers." +:+ str (i + layers_per_rank * 0))
                  <$> range layers_per_rank))
          = mem ("layers." +:+ str 0)
              ((λ i, "layers." +:+ str (i + layers_per_rank * 0))
                 <$> range layers_per_rank)).
  { unfold mem. apply bool_decide_ext. rewrite elem_of_cons.
    change ("layers." +:+ str 0) with "layers.0".
    split; [intros [?|?]; [discriminate|done] | auto]. }
  rewrite Hmem, mem_layer_names.
  repeat case_bool_decide; try done; lia.
Qed.

Lemma stage_layer_names_interior (layers_per_rank layer_offset pp_rank pp_size : Z) :
  pp_rank ≠ 0 → pp_rank ≠ pp_size - 1 →
  stage_layer_names layers_per_rank layer_offset pp_rank pp_size
  = Ok ((λ i, "layers." +:+ str (i + layer_offset)) <$> range layers_per_rank).
Proof.
  intros H0 Hlast. unfold stage_layer_names.
  by rewrite (bool_decide_eq_false_2 _ H0), (bool_decide_eq_false_2 _ Hlast).
Qed.

(** The layer ranges of the [pp] stages, one after the other, are the
    layers [0 .. layers_per_rank * pp - 1] in order. *)
Lemma stage_ranges_cover (layers_per_rank : Z) (n : nat) :
  0 ≤ layers_per_rank →
  concat ((λ r, seqZ (layers_per_rank * r) layers_per_rank)
            <$> seqZ 0 (Z.of_nat n))
  = seqZ 0 (layers_per_rank * Z.of_nat n).
Proof.
  intros Hl. induction n as [|n IH].
  - rewrite Z.mul_0_r. done.
  - rewrite seqZ_S, fmap_app, concat_app, IH. simpl.
    rewrite app_nil_r, Z.add_0_l.
    replace (layers_per_rank * Z.of_nat (S n))
      with (layers_per_rank * Z.of_nat n + layers_per_rank) by lia.
    rewrite seqZ_app by lia. by rewrite Z.add_0_l.
Qed.

(** C1 (code defect).  With at least two pipeline ranks and [pp] dividing
    the layer count, the manual partitioner raises [AssertionError] on the
    last rank, at [assert "layers.1" in this_stage_layer_names], for every
    layer count other than the one case of two layers on two ranks; so
    for 8 layers on 2 ranks no stage 1 is built. *)
Theorem manual_last_rank_raises (m : Transformer.t) (world_mesh : DeviceMesh)
    (parallel_dims : ParallelDims) (job_config : JobConfig) (device : string)
    (model_config : ModelConfig.t) (d : MeshDim) :
  mesh_getitem world_mesh "pp" = Ok [d] →
  pp parallel_dims = dim_size d →
  2 ≤ dim_size d →
  dim_rank d = dim_size d - 1 →
  (pp parallel_dims | Z.of_nat (length (Transformer.layers m))) →
  ¬ (pp parallel_dims = 2 ∧ length (Transformer.layers m) = 2%nat) →
  apply_pipeline_parallelism_manual m world_mesh parallel_dims job_config
    device model_config
  = Raise AssertionError.
Proof.
  intros Hmesh Hpp Hsize Hrank [q Hq] Hne.
  unfold apply_pipeline_parallelism_manual.
  rewrite Hmesh, bind_Ok. simpl get_local_rank. rewrite bind_Ok.
  rewrite floordiv_Ok, bind_Ok by lia.
  rewrite stage_layer_names_last; [done| | |].
  - lia.
  - simpl. lia.
  - rewrite Hq, Z.div_mul by lia. nia.
Qed.

Lemma manual_last_rank_raises_witness :
  apply_pipeline_parallelism_manual (sample_model 8 32)
    (sample_mesh "pp" 2 1) (sample_dims 1 1 2)
    (sample_config "none" "" "manual" "1f1b") "cuda" sample_model_config
  = Raise AssertionError.
Proof.
  apply (manual_last_rank_raises _ _ _ _ _ _
           {| dim_name := "pp"; dim_size := 2; dim_rank := 1 |}).
  - reflexivity.
  - reflexivity.
  - simpl. lia.
  - reflexivity.
  - exists 4. reflexivity.
  - vm_compute. intros [_ H]. discriminate H.
Defined.

(** On 8 layers and 2 ranks the first rank owns the embedding and the
    layers 0 to 3. *)
Example manual_first_rank_of_two :
  ∃ s c,
    apply_pipeline_parallelism_manual (sample_model 8 32)
      (sample_mesh "pp" 2 0) (sample_dims 1 1 2)
      (sample_config "none" "" "manual" "1f1b") "cuda" sample_model_config
    = Ok (ManualStage s, ChunkModel c)
    ∧ TransformerChunk.tok_embeddings c = Some {| fqn := "tok_embeddings" |}
    ∧ (λ nb, nb.1) <$> TransformerChunk.layers c = ["0"; "1"; "2"; "3"]
    ∧ TransformerChunk.norm c = None
    ∧ TransformerChunk.output c = None.
Proof. eexists _, _. repeat split; reflexivity. Qed.

(** On a single rank, which is the first and the last at once, only the
    branch of the first rank runs: the stage has the embedding and all
    the layers, and neither the norm nor the output projection. *)
Example manual_single_rank_has_no_head :
  ∃ s c,
    apply_pipeline_parallelism_manual (sample_model 4 32)
      (sample_mesh "pp" 1 0) (sample_dims 1 1 1)
      (sample_config "none" "" "manual" "1f1b") "cuda" sample_model_config
    = Ok (ManualStage s, ChunkModel c)
    ∧ TransformerChunk.tok_embeddings c = Some {| fqn := "tok_embeddings" |}
    ∧ (λ nb, nb.1) <$> TransformerChunk.layers c = ["0"; "1"; "2"; "3"]
    ∧ TransformerChunk.norm c = None
    ∧ TransformerChunk.output c = None.
Proof. eexists _, _. repeat split; reflexivity. Qed.

(** On 2 layers and 2 ranks, the one case the assertion of the last rank
    lets through, the last rank owns layer 1, the norm and the output
    projection. *)
Example manual_last_rank_two_layers :
  ∃ s c,
    apply_pipeline_parallelism_manual (sample_model 2 32)
      (sample_mesh "pp" 2 1) (sample_dims 1 1 2)
      (sample_config "none" "" "manual" "1f1b") "cuda" sample_model_config
    = Ok (ManualStage s, ChunkModel c)
    ∧ TransformerChunk.tok_embeddings c = None
    ∧ (λ nb, nb.1) <$> TransformerChunk.layers c = ["1"]
    ∧ TransformerChunk.norm c = Some {| fqn := "norm" |}
    ∧ TransformerChunk.output c = Some {| fqn := "output" |}.
Proof. eexists _, _. repeat split; reflexivity. Qed.

(** ** The stage-local model *)

Lemma modulelist_getitem_Ok (ls : list (string * TransformerBlock)) (j : Z) :
  0 ≤ j < Z.of_nat (length ls) →
  modulelist_getitem ls j = Ok (ls !!! Z.to_nat j).2.
Proof.
  intros Hj. unfold modulelist_getitem.
  replace (- Z.of_nat (length ls) <=? j) with true by (symmetry; lia).
  replace (j <? Z.of_nat (length ls)) with true by (symmetry; lia).
  replace (j <? 0) with false by (symmetry; lia). simpl.
  destruct (lookup_lt_is_Some_2 ls (Z.to_nat j)) as [[name b] Hnb]; [lia|].
  by rewrite (list_lookup_total_correct _ _ _ Hnb), Hnb.
Qed.

Lemma moduledict_setitem_fresh (k : string) (v : TransformerBlock)
    (d : list (string * TransformerBlock)) :
  k ∉ d.*1 → moduledict_setitem k v d = d ++ [(k, v)].
Proof.
  induction d as [|[k' v'] d IH]; simpl; [done|].
  rewrite not_elem_of_cons. intros [Hne Hd].
  rewrite bool_decide_eq_false_2 by congruence. by rewrite IH.
Qed.

Lemma fill_layers_app (m : Transformer.t) (l1 l2 : list string)
    (acc : list (string * TransformerBlock)) :
  TransformerChunk.fill_layers m (l1 ++ l2) acc
  = TransformerChunk.fill_layers m l1 acc ≫= TransformerChunk.fill_layers m l2.
Proof.
  revert acc. induction l1 as [|name l1 IH]; intros acc; [done|].
  simpl. destruct (contains "layers." name); [|apply IH].
  destruct (int _) as [i|e]; [|done]. simpl.
  destruct (modulelist_getitem _ i) as [b|e]; [|done]. simpl. apply IH.
Qed.

(** The names of a range of layers fill the module dict with those
    layers, each under its own index. *)
Lemma fill_layers_range (m : Transformer.t) (n : nat) (layer_offset : Z)
    (acc : list (string * TransformerBlock)) :
  0 ≤ layer_offset →
  layer_offset + Z.of_nat n ≤ Z.of_nat (length (Transformer.layers m)) →
  (∀ j, layer_offset ≤ j → str j ∉ acc.*1) →
  TransformerChunk.fill_layers m
    ((λ j, "layers." +:+ str j) <$> seqZ layer_offset (Z.of_nat n)) acc
  = Ok (acc ++ ((λ j, (str j, (Transformer.layers m !!! Z.to_nat j).2))
                  <$> seqZ layer_offset (Z.of_nat n))).
Proof.
  revert layer_offset acc.
  induction n as [|n IH]; intros layer_offset acc Hoff Hlen Hfresh.
  - simpl. by rewrite app_nil_r.
  - rewrite seqZ_cons by lia. rewrite !fmap_cons.
    replace (Z.pred (Z.of_nat (S n))) with (Z.of_nat n) by lia.
    cbn [TransformerChunk.fill_layers].
    rewrite contains_layer_name, last_field_layer_name, int_str by lia.
    rewrite bind_Ok, modulelist_getitem_Ok, bind_Ok by lia.
    rewrite moduledict_setitem_fresh by (apply Hfresh; lia).
    rewrite IH; [by rewrite <- app_assoc | lia | lia |].
    intros j Hj. rewrite fmap_app, elem_of_app. simpl.
    rewrite list_elem_of_singleton.
    intros [Hin | Heq%str_inj]; [|lia].
    by apply (Hfresh j); [lia|].
Qed.

Lemma layer_names_shift (layers_per_rank layer_offset : Z) :
  (λ i, "layers." +:+ str (i + layer_offset)) <$> range layers_per_rank
  = (λ j, "layers." +:+ str j) <$> seqZ layer_offset layers_per_rank.
Proof.
  unfold range.
  assert (seqZ layer_offset layers_per_rank
          = Z.add layer_offset <$> seqZ 0 layers_per_rank) as ->
    by (by rewrite fmap_add_seqZ, Z.add_0_r).
  rewrite <- list_fmap_compose. apply list_fmap_ext. intros _ i _. simpl.
  do 2 f_equal. lia.
Qed.

Lemma mem_layer_names_other (x : string) (layers_per_rank layer_offset : Z) :
  String.prefix "layers." x = false →
  mem x ((λ i, "layers." +:+ str (i + layer_offset)) <$> range layers_per_rank)
  = false.
Proof.
  intros Hx. unfold mem. apply bool_decide_eq_false_2.
  rewrite list_elem_of_fmap. intros (i & -> & _).
  rewrite !append_cons, append_nil in Hx. simpl in Hx.
  by destruct (str (i + layer_offset)).
Qed.

Lemma mem_cons (x y : string) (l : list string) :
  mem x (y :: l) = bool_decide (x = y) || mem x l.
Proof.
  unfold mem. destruct (decide (x = y)) as [->|Hne].
  - rewrite (bool_decide_eq_true_2 (y = y)) by done. simpl.
    apply bool_decide_eq_true_2, elem_of_cons. auto.
  - rewrite (bool_decide_eq_false_2 (x = y)) by done. simpl.
    apply bool_decide_ext. rewrite elem_of_cons. tauto.
Qed.

Lemma mem_nil (x : string) : mem x [] = false.
Proof. unfold mem. apply bool_decide_eq_false_2, not_elem_of_nil. Qed.

Lemma mem_app (x : string) (l1 l2 : list string) :
  mem x (l1 ++ l2) = mem x l1 || mem x l2.
Proof.
  induction l1 as [|y l1 IH].
  - by rewrite mem_nil.
  - by rewrite <- app_comm_cons, !mem_cons, IH, orb_assoc.
Qed.

(** Reads the fields of a chunk just built, deciding the tests on names
    and ranks left in them. *)
Ltac chunk_fields :=
  simpl; repeat case_bool_decide; repeat split;
  try done; try congruence; try lia.

(** Whenever the list of names gets past the assertions on a rank of the
    pipeline, the manual partitioner builds the stage holding exactly the
    layers [layers_per_rank * pp_rank] up to
    [layers_per_rank * (pp_rank + 1) - 1] of the model, each under its
    original index, with the embedding on rank 0 and with the norm and
    the output projection on a last rank other than 0. *)
Lemma manual_stage_built (m : Transformer.t) (world_mesh : DeviceMesh)
    (parallel_dims : ParallelDims) (job_config : JobConfig) (device : string)
    (model_config : ModelConfig.t) (d : MeshDim) (names : list string) :
  let layers_per_rank :=
    Z.of_nat (length (Transformer.layers m)) `div` pp parallel_dims in
  let is_last :=
    bool_decide (dim_rank d ≠ 0) && bool_decide (dim_rank d = dim_size d - 1) in
  mesh_getitem world_mesh "pp" = Ok [d] →
  0 ≤ dim_rank d < pp parallel_dims →
  tp parallel_dims ≠ 0 →
  stage_layer_names layers_per_rank (layers_per_rank * dim_rank d)
    (dim_rank d) (dim_size d) = Ok names →
  ∃ s c,
    apply_pipeline_parallelism_manual m world_mesh parallel_dims job_config
      device model_config = Ok (ManualStage s, ChunkModel c)
    ∧ TransformerChunk.layers c
      = (λ j, (str j, (Transformer.layers m !!! Z.to_nat j).2))
          <$> seqZ (layers_per_rank * dim_rank d) layers_per_rank
    ∧ TransformerChunk.tok_embeddings c
      = (if bool_decide (dim_rank d = 0)
         then Some (Transformer.tok_embeddings m) else None)
    ∧ TransformerChunk.norm c
      = (if is_last then Some (Transformer.norm m) else None)
    ∧ TransformerChunk.output c
      = (if is_last then Some (Transformer.output m) else None).
Proof.
  intros layers_per_rank is_last Hmesh Hrank Htp Hnames.
  assert (Hlpr : 0 ≤ layers_per_rank) by (apply Z.div_pos; lia).
  assert (Hle : pp parallel_dims * layers_per_rank
                ≤ Z.of_nat (length (Transformer.layers m)))
    by (apply Z.mul_div_le; lia).
  assert (Hfill : ∀ acc,
            (∀ j, layers_per_rank * dim_rank d ≤ j → str j ∉ acc.*1) →
            TransformerChunk.fill_layers m
              ((λ i, "layers." +:+ str (i + layers_per_rank * dim_rank d))
                 <$> range layers_per_rank) acc
            = Ok (acc ++ ((λ j, (str j, (Transformer.layers m !!! Z.to_nat j).2))
                            <$> seqZ (layers_per_rank * dim_rank d)
                                  layers_per_rank))).
  { intros acc Hacc. rewrite layer_names_shift.
    rewrite <- (Z2Nat.id layers_per_rank) by done.
    apply fill_layers_range; [nia | nia |].
    intros j Hj. apply Hacc. by rewrite Z2Nat.id in Hj. }
  unfold apply_pipeline_parallelism_manual.
  rewrite Hmesh, bind_Ok. simpl get_local_rank. rewrite bind_Ok.
  rewrite floordiv_Ok, bind_Ok by lia. fold layers_per_rank.
  simpl mesh_size. rewrite Z.mul_1_r, Hnames, bind_Ok.
  unfold stage_example_tensors. rewrite !floordiv_Ok by done.
  unfold stage_layer_names in Hnames. subst is_last.
  unfold TransformerChunk.__init__.
  case_bool_decide as H0.
  - (* the first rank *)
    destruct (assert _) in Hnames; [|discriminate]. injection Hnames as <-.
    rewrite !mem_cons, !mem_layer_names_other by done.
    change (TransformerChunk.fill_layers m ("tok_embeddings" :: ?l) [])
      with (TransformerChunk.fill_layers m l []).
    rewrite Hfill by (intros j _; apply not_elem_of_nil).
    rewrite bind_Ok. eexists _, _. split; [reflexivity|]. chunk_fields.
  - case_bool_decide as Hlast.
    + (* the last rank *)
      destruct (assert _) in Hnames; [|discriminate]. injection Hnames as <-.
      rewrite !mem_app, !mem_cons, !mem_nil, !mem_layer_names_other by done.
      rewrite !fill_layers_app, Hfill by (intros j _; apply not_elem_of_nil).
      rewrite !bind_Ok. eexists _, _. split; [reflexivity|]. chunk_fields.
    + (* a rank in between *)
      injection Hnames as <-.
      rewrite !mem_layer_names_other by done.
      rewrite Hfill by (intros j _; apply not_elem_of_nil).
      rewrite bind_Ok. eexists _, _. split; [reflexivity|]. chunk_fields.
Qed.

(** With at least one layer per rank, the first rank always gets its
    stage: the embedding and the first [layers_per_rank] layers. *)
Lemma manual_first_rank_built (m : Transformer.t) (world_mesh : DeviceMesh)
    (parallel_dims : ParallelDims) (job_config : JobConfig) (device : string)
    (model_config : ModelConfig.t) (d : MeshDim) :
  mesh_getitem world_mesh "pp" = Ok [d] →
  dim_rank d = 0 →
  0 < pp parallel_dims ≤ Z.of_nat (length (Transformer.layers m)) →
  tp parallel_dims ≠ 0 →
  ∃ s c,
    apply_pipeline_parallelism_manual m world_mesh parallel_dims job_config
      device model_config = Ok (ManualStage s, ChunkModel c)
    ∧ TransformerChunk.layers c
      = (λ j, (str j, (Transformer.layers m !!! Z.to_nat j).2))
          <$> seqZ 0
                (Z.of_nat (length (Transformer.layers m)) `div` pp parallel_dims)
    ∧ TransformerChunk.tok_embeddings c = Some (Transformer.tok_embeddings m).
Proof.
  intros Hmesh Hrank Hpp Htp.
  assert (Hlpr : 1 ≤ Z.of_nat (length (Transformer.layers m))
                     `div` pp parallel_dims)
    by (apply Z.div_le_lower_bound; lia).
  destruct (manual_stage_built m world_mesh parallel_dims job_config device
              model_config d
              ("tok_embeddings" ::
               ((λ i, "layers." +:+
                        str (i + Z.of_nat (length (Transformer.layers m))
                                   `div` pp parallel_dims * 0))
                  <$> range (Z.of_nat (length (Transformer.layers m))
                               `div` pp parallel_dims))))
    as (s & c & Hrun & Hlayers & Htok & _); [done | lia | done | |].
  - rewrite Hrank, stage_layer_names_first.
    by rewrite bool_decide_eq_true_2.
  - exists s, c. rewrite Hrank, Z.mul_0_r in Hlayers.
    rewrite Hrank in Htok. done.
Qed.

(** A stage without layers: the first and the last rank stop at their
    assertion, the ranks in between have none. *)
Lemma stage_layer_names_empty (layer_offset pp_rank pp_size : Z) :
  stage_layer_names 0 layer_offset pp_rank pp_size
  = if bool_decide (pp_rank = 0) || bool_decide (pp_rank = pp_size - 1)
    then Raise AssertionError else Ok [].
Proof. unfold stage_layer_names. repeat case_bool_decide; done. Qed.

(** C6 (as amended).  When pipelining is on and a stage would own no
    layer, the manual partitioner raises [AssertionError] on the first
    rank and on the last rank, out of the list of layer names and so
    before any stage-local model is built. *)
Theorem manual_zero_layers_raises (m : Transformer.t) (world_mesh : DeviceMesh)
    (parallel_dims : ParallelDims) (job_config : JobConfig) (device : string)
    (model_config : ModelConfig.t) (d : MeshDim) :
  mesh_getitem world_mesh "pp" = Ok [d] →
  1 < dim_size d →
  floordiv (Z.of_nat (length (Transformer.layers m))) (pp parallel_dims) = Ok 0 →
  dim_rank d = 0 ∨ dim_rank d = dim_size d - 1 →
  stage_layer_names 0 (0 * dim_rank d) (dim_rank d) (dim_size d)
  = Raise AssertionError
  ∧ apply_pipeline_parallelism_manual m world_mesh parallel_dims job_config
      device model_config
    = Raise AssertionError.
Proof.
  intros Hmesh Hsize Hdiv Hrank.
  assert (Hnames : stage_layer_names 0 (0 * dim_rank d) (dim_rank d) (dim_size d)
                   = Raise AssertionError).
  { rewrite stage_layer_names_empty.
    destruct Hrank as [H|H]; repeat case_bool_decide; done. }
  split; [done|].
  unfold apply_pipeline_parallelism_manual.
  rewrite Hmesh, bind_Ok. simpl get_local_rank. rewrite bind_Ok.
  rewrite Hdiv, bind_Ok. simpl mesh_size. rewrite Z.mul_1_r.
  by rewrite Hnames.
Qed.

Lemma manual_zero_layers_raises_witness :
  stage_layer_names 0 (0 * 0) 0 3 = Raise AssertionError
  ∧ apply_pipeline_parallelism_manual (sample_model 2 32)
      (sample_mesh "pp" 3 0) (sample_dims 1 1 3)
      (sample_config "none" "" "manual" "1f1b") "cuda" sample_model_config
    = Raise AssertionError.
Proof.
  apply (manual_zero_layers_raises _ _ _ _ _ _
           {| dim_name := "pp"; dim_size := 3; dim_rank := 0 |}).
  - reflexivity.
  - simpl. lia.
  - reflexivity.
  - left. reflexivity.
Defined.

(** C6 (as stated) fails: with 2 layers on 3 pipeline ranks every stage
    would own no layer, and the rank in the middle builds an empty stage
    without raising. *)
Lemma manual_zero_layers_interior_rank :
  1 < mesh_size (sample_mesh "pp" 3 1)
  ∧ floordiv (Z.of_nat (length (Transformer.layers (sample_model 2 32))))
      (pp (sample_dims 1 1 3)) = Ok 0
  ∧ ∃ s c,
      apply_pipeline_parallelism_manual (sample_model 2 32)
        (sample_mesh "pp" 3 1) (sample_dims 1 1 3)
        (sample_config "none" "" "manual" "1f1b") "cuda" sample_model_config
      = Ok (ManualStage s, ChunkModel c)
      ∧ TransformerChunk.layers c = [].
Proof.
  split; [simpl; lia|]. split; [reflexivity|].
  eexists _, _. split; reflexivity.
Qed.

(** ** Dispatch on configured names *)

(** C7.  A schedule name other than ["1f1b"] and ["gpipe"] makes
    [build_pipeline_schedule] raise [NotImplementedError] whatever the
    stage, and a split mode other than ["manual"] and ["tracer"] makes
    [apply_pipeline_parallelism] raise it whatever the model and mesh;
    the four recognised names select their schedule class and their
    partitioner. *)
Theorem unknown_names_rejected {St L : Type} (m : Transformer.t)
    (world_mesh : DeviceMesh) (parallel_dims : ParallelDims)
    (job_config : JobConfig) (device : string) (model_config : ModelConfig.t)
    (stage : St) (loss : L) :
  let schedule := pipeline_parallel_schedule (experimental job_config) in
  let split_mode := pipeline_parallel_split_mode (experimental job_config) in
  (schedule ≠ "1f1b" → schedule ≠ "gpipe" →
   build_pipeline_schedule job_config parallel_dims stage loss
   = Raise NotImplementedError)
  ∧ (split_mode ≠ "manual" → split_mode ≠ "tracer" →
     apply_pipeline_parallelism m world_mesh parallel_dims job_config device
       model_config
     = Raise NotImplementedError)
  ∧ (schedule = "1f1b" →
     build_pipeline_schedule job_config parallel_dims stage loss
     = Ok {| schedule_class := Schedule1F1B; schedule_stage := stage;
             n_microbatches := pp parallel_dims; loss_fn := loss |})
  ∧ (schedule = "gpipe" →
     build_pipeline_schedule job_config parallel_dims stage loss
     = Ok {| schedule_class := ScheduleGPipe; schedule_stage := stage;
             n_microbatches := pp parallel_dims; loss_fn := loss |})
  ∧ (split_mode = "manual" →
     apply_pipeline_parallelism m world_mesh parallel_dims job_config device
       model_config
     = apply_pipeline_parallelism_manual m world_mesh parallel_dims job_config
         device model_config)
  ∧ (split_mode = "tracer" →
     apply_pipeline_parallelism m world_mesh parallel_dims job_config device
       model_config
     = apply_pipeline_parallelism_tracer m world_mesh parallel_dims job_config
         device model_config).
Proof.
  intros schedule split_mode.
  unfold build_pipeline_schedule, apply_pipeline_parallelism.
  fold schedule split_mode.
  repeat split; intros; repeat case_bool_decide; try done; congruence.
Qed.

Lemma unknown_names_rejected_witness :
  build_pipeline_schedule (sample_config "none" "" "foo" "foo")
    (sample_dims 1 1 2) tt tt
  = Raise NotImplementedError
  ∧ apply_pipeline_parallelism (sample_model 8 32) (sample_mesh "pp" 2 0)
      (sample_dims 1 1 2) (sample_config "none" "" "foo" "foo") "cuda"
      sample_model_config
    = Raise NotImplementedError.
Proof.
  pose proof (unknown_names_rejected (sample_model 8 32) (sample_mesh "pp" 2 0)
                (sample_dims 1 1 2) (sample_config "none" "" "foo" "foo")
                "cuda" sample_model_config tt tt) as (H1 & H2 & _).
  split; [apply H1; discriminate | apply H2; discriminate].
Defined.

(** ** Declared shapes and microbatches *)

Lemma bind_Ok_inv {A B} (r : result A) (k : A → result B) (b : B) :
  (r ≫= k) = Ok b → ∃ a, r = Ok a ∧ k a = Ok b.
Proof. destruct r as [a|e]; [eauto|discriminate]. Qed.

(** [bind_inv H as x Hr] splits [H : (r ≫= k) = Ok b] into [Hr : r = Ok x]
    and [H : k x = Ok b]. *)
Tactic Notation "bind_inv" hyp(H) "as" simple_intropattern(x)
    simple_intropattern(Hr) :=
  apply bind_Ok_inv in H as (x & Hr & H).

(** What a successful call of the manual partitioner has computed. *)
Lemma manual_Ok_inv (m : Transformer.t) (world_mesh : DeviceMesh)
    (parallel_dims : ParallelDims) (job_config : JobConfig) (device : string)
    (model_config : ModelConfig.t) (st : Stage) (sm : StageModel) :
  apply_pipeline_parallelism_manual m world_mesh parallel_dims job_config
    device model_config = Ok (st, sm) →
  ∃ pp_mesh pp_rank chunk input output,
    mesh_getitem world_mesh "pp" = Ok pp_mesh
    ∧ get_local_rank pp_mesh = Ok pp_rank
    ∧ stage_example_tensors pp_rank parallel_dims job_config device model_config
      = Ok (input, output)
    ∧ sm = ChunkModel chunk
    ∧ st = ManualStage
             {| manual_module := chunk;
                manual_stage_index := pp_rank;
                manual_num_stages := mesh_size pp_mesh;
                manual_device := device;
                manual_chunks := pp parallel_dims;
                input_args :=
                  {| chunk_of := input; chunks := pp parallel_dims |};
                output_args :=
                  {| chunk_of := output; chunks := pp parallel_dims |};
                manual_group := "pp" |}.
Proof.
  unfold apply_pipeline_parallelism_manual. intros H.
  bind_inv H as pp_mesh Hmesh.
  bind_inv H as pp_rank Hrank.
  bind_inv H as lpr Hlpr.
  bind_inv H as names Hnames.
  bind_inv H as chunk Hchunk.
  bind_inv H as [input output] Hex.
  injection H as <- <-.
  exists pp_mesh, pp_rank, chunk, input, output. done.
Qed.

Lemma stage_example_tensors_Ok_inv (pp_rank : Z) (parallel_dims : ParallelDims)
    (job_config : JobConfig) (device : string) (model_config : ModelConfig.t)
    (input output : Tensor) :
  stage_example_tensors pp_rank parallel_dims job_config device model_config
  = Ok (input, output) →
  let declared :=
    [batch_size (training job_config);
     seq_len (training job_config) `div` tp parallel_dims;
     ModelConfig.dim model_config] in
  shape output = declared
  ∧ (pp_rank = 0 →
     shape input = [batch_size (training job_config); seq_len (training job_config)]
     ∧ dtype input = int64)
  ∧ (pp_rank ≠ 0 → shape input = declared).
Proof.
  intros H declared. unfold stage_example_tensors in H.
  case_bool_decide as Hr.
  - bind_inv H as q [_ ->]%floordiv_inv.
    injection H as <- <-. done.
  - bind_inv H as q [_ ->]%floordiv_inv.
    bind_inv H as q' [_ ->]%floordiv_inv.
    injection H as <- <-. done.
Qed.

(** C8.  A stage the manual partitioner returns has its shapes declared
    from the configuration alone: the output is
    [(batch_size, seq_len // tp, dim)] on every rank; the input of rank 0
    is an [int64] tensor of shape [(batch_size, seq_len)]; the input of
    every other rank has the shape of the declared output, which is the
    shape any other stage of the same configuration declares as its
    output. *)
Theorem manual_declared_shapes (m : Transformer.t) (world_mesh : DeviceMesh)
    (parallel_dims : ParallelDims) (job_config : JobConfig) (device : string)
    (model_config : ModelConfig.t) (s : ManualPipelineStage) (c : StageModel) :
  apply_pipeline_parallelism_manual m world_mesh parallel_dims job_config
    device model_config = Ok (ManualStage s, c) →
  let declared :=
    [batch_size (training job_config);
     seq_len (training job_config) `div` tp parallel_dims;
     ModelConfig.dim model_config] in
  shape (chunk_of (output_args s)) = declared
  ∧ (manual_stage_index s = 0 →
     shape (chunk_of (input_args s))
     = [batch_size (training job_config); seq_len (training job_config)]
     ∧ dtype (chunk_of (input_args s)) = int64)
  ∧ (manual_stage_index s ≠ 0 → shape (chunk_of (input_args s)) = declared)
  ∧ (∀ m' world_mesh' s' c',
       apply_pipeline_parallelism_manual m' world_mesh' parallel_dims job_config
         device model_config = Ok (ManualStage s', c') →
       manual_stage_index s ≠ 0 →
       shape (chunk_of (input_args s)) = shape (chunk_of (output_args s'))).
Proof.
  intros H declared.
  apply manual_Ok_inv in H
    as (pp_mesh & pp_rank & chunk & input & output & _ & _ & Hex & _ & Hs).
  injection Hs as ->. simpl.
  apply stage_example_tensors_Ok_inv in Hex as (Hout & Hfirst & Hrest).
  repeat split; try done; try (by apply Hfirst).
  intros m' world_mesh' s' c' H' Hne.
  apply manual_Ok_inv in H'
    as (pp_mesh' & pp_rank' & chunk' & input' & output' & _ & _ & Hex' & _ & Hs').
  injection Hs' as ->. simpl.
  apply stage_example_tensors_Ok_inv in Hex' as (Hout' & _ & _).
  rewrite Hout'. by apply Hrest.
Qed.

Lemma manual_declared_shapes_witness :
  ∃ s c,
    apply_pipeline_parallelism_manual (sample_model 2 32)
      (sample_mesh "pp" 2 1) (sample_dims 1 2 2)
      (sample_config "none" "" "manual" "1f1b") "cuda" sample_model_config
    = Ok (ManualStage s, c)
    ∧ shape (chunk_of (output_args s)) = [8; 1024; 256]
    ∧ shape (chunk_of (input_args s)) = [8; 1024; 256].
Proof.
  eexists _, _. split; [reflexivity|].
  pose proof (manual_declared_shapes (sample_model 2 32)
                (sample_mesh "pp" 2 1) (sample_dims 1 2 2)
                (sample_config "none" "" "manual" "1f1b") "cuda"
                sample_model_config _ _ eq_refl) as (Hout & _ & Hin & _).
  split; [exact Hout | apply Hin; discriminate].
Defined.



(** ** The entry point with both axes off *)

(** C9.  With the tensor-parallel and the data-parallel axis both
    disabled, [parallelize_llama] returns its model as it received it,
    whatever the checkpoint mode: nothing is wrapped, no head count
    changes, and the counter of [checkpoint_wrapper] is not touched. *)
Theorem parallelize_llama_identity (m : Transformer.t) (world_mesh : DeviceMesh)
    (parallel_dims : ParallelDims) (job_config : JobConfig)
    (attrs : gmap string Z) :
  tp_enabled parallel_dims = false →
  dp_enabled parallel_dims = false →
  parallelize_llama m world_mesh parallel_dims job_config attrs
  = (Ok m, m, attrs).
Proof.
  intros Htp Hdp. unfold parallelize_llama. by rewrite Htp, Hdp.
Qed.

Lemma parallelize_llama_identity_witness :
  parallelize_llama (sample_model 4 32) (sample_mesh "pp" 2 0)
    (sample_dims 1 1 2) (sample_config "full" "" "manual" "1f1b") ∅
  = (Ok (sample_model 4 32), sample_model 4 32, ∅).
Proof.
  apply parallelize_llama_identity; reflexivity.
Defined.

(** ** The tensor-parallel branch *)

(** What the tensor-parallel loop leaves of a block on a mesh of [size]
    ranks. *)
Lemma tp_block_Ok (tp_mesh : DeviceMesh) (row col : StyleClass)
    (b : TransformerBlock) :
  mesh_size tp_mesh ≠ 0 →
  tp_block tp_mesh row col b tt
  = (Ok tt,
     parallelize_module
       (set_n_kv_heads
          (set_n_heads b (n_heads (attention b) `div` mesh_size tp_mesh))
          (n_kv_heads (attention b) `div` mesh_size tp_mesh))
       tp_mesh (layer_plan row col),
     tt).
Proof.
  intros Hsize. unfold tp_block. rewrite floordiv_Ok by done.
  simpl. rewrite floordiv_Ok by done. done.
Qed.

Lemma tp_loop_Ok (tp_mesh : DeviceMesh) (row col : StyleClass)
    (ls : list (string * TransformerBlock)) :
  mesh_size tp_mesh ≠ 0 →
  for_named_children (tp_block tp_mesh row col) ls tt
  = (Ok tt,
     (λ nb, (nb.1,
             parallelize_module
               (set_n_kv_heads
                  (set_n_heads nb.2
                     (n_heads (attention nb.2) `div` mesh_size tp_mesh))
                  (n_kv_heads (attention nb.2) `div` mesh_size tp_mesh))
               tp_mesh (layer_plan row col))) <$> ls,
     tt).
Proof.
  intros Hsize. induction ls as [|[name b] ls IH]; [done|].
  simpl. rewrite tp_block_Ok by done. rewrite IH. done.
Qed.

(** C2 (as amended).  The tensor-parallel branch makes no test of
    divisibility: on a mesh of [t] ranks, [t] not zero, and with a norm
    other than the fused one, it returns normally and replaces the head
    count and the kv-head count of every block by their floor quotients
    by [t]; when [t] divides a count, the new count times [t] is the old
    one.  With data parallelism off, that model is what
    [parallelize_llama] returns. *)
Theorem tp_branch_divides_heads (m : Transformer.t) (world_mesh tp_mesh : DeviceMesh)
    (parallel_dims : ParallelDims) (job_config : JobConfig) :
  norm_type (model job_config) ≠ "fused_rmsnorm" →
  mesh_getitem world_mesh "tp" = Ok tp_mesh →
  mesh_size tp_mesh ≠ 0 →
  ∃ m',
    tp_branch m world_mesh parallel_dims job_config = (Ok tt, m')
    ∧ length (Transformer.layers m') = length (Transformer.layers m)
    ∧ (∀ k name b,
        Transformer.layers m !! k = Some (name, b) →
        ∃ b',
          Transformer.layers m' !! k = Some (name, b')
          ∧ n_heads (attention b')
            = n_heads (attention b) `div` mesh_size tp_mesh
          ∧ n_kv_heads (attention b')
            = n_kv_heads (attention b) `div` mesh_size tp_mesh
          ∧ ((mesh_size tp_mesh | n_heads (attention b)) →
             n_heads (attention b') * mesh_size tp_mesh
             = n_heads (attention b))
          ∧ ((mesh_size tp_mesh | n_kv_heads (attention b)) →
             n_kv_heads (attention b') * mesh_size tp_mesh
             = n_kv_heads (attention b)))
    ∧ (tp_enabled parallel_dims = true →
       dp_enabled parallel_dims = false →
       ∀ attrs,
         parallelize_llama m world_mesh parallel_dims job_config attrs
         = (Ok m', m', attrs)).
Proof.
  intros Hnorm Hmesh Hsize.
  assert (∃ m', tp_branch m world_mesh parallel_dims job_config = (Ok tt, m')
                ∧ Transformer.layers m'
                  = (λ nb, (nb.1,
                            parallelize_module
                              (set_n_kv_heads
                                 (set_n_heads nb.2
                                    (n_heads (attention nb.2)
                                       `div` mesh_size tp_mesh))
                                 (n_kv_heads (attention nb.2)
                                    `div` mesh_size tp_mesh))
                              tp_mesh
                              (layer_plan (get_tp_parallel_strategy job_config).1
                                 (get_tp_parallel_strategy job_config).2)))
                    <$> Transformer.layers m)
    as (m' & Hrun & Hlayers).
  { unfold tp_branch.
    rewrite (bool_decide_eq_false_2 _ Hnorm), Hmesh.
    destruct (get_tp_parallel_strategy job_config) as [row col].
    simpl Transformer.layers. rewrite tp_loop_Ok by done.
    eexists. split; reflexivity. }
  exists m'. split; [done|]. rewrite Hlayers.
  split; [by rewrite length_fmap|]. split.
  - intros k name b Hk. eexists. rewrite list_lookup_fmap, Hk. simpl.
    split; [reflexivity|]. simpl. repeat split.
    + intros [q ->]. by rewrite Z.div_mul.
    + intros [q ->]. by rewrite Z.div_mul.
  - intros Htp Hdp attrs. unfold parallelize_llama.
    by rewrite Htp, Hrun, Hdp.
Qed.

Lemma tp_branch_divides_heads_witness :
  ∃ m' b',
    tp_branch (sample_model 2 32) (sample_mesh "tp" 4 1) (sample_dims 1 4 1)
      (sample_config "none" "" "manual" "1f1b") = (Ok tt, m')
    ∧ Transformer.layers m' !! 1%nat = Some ("1", b')
    ∧ n_heads (attention b') = 8
    ∧ n_kv_heads (attention b') = 8.
Proof.
  destruct (tp_branch_divides_heads (sample_model 2 32) (sample_mesh "tp" 4 1)
              (sample_mesh "tp" 4 1) (sample_dims 1 4 1)
              (sample_config "none" "" "manual" "1f1b"))
    as (m' & Hrun & _ & Hblocks & _).
  - discriminate.
  - reflexivity.
  - discriminate.
  - destruct (Hblocks 1%nat "1" (sample_block 32) eq_refl)
      as (b' & Hb' & Hh & Hkv & _).
    exists m', b'. repeat split; assumption.
Defined.

(** C2 (as stated) fails: 5 heads on a tensor-parallel mesh of 2 ranks do
    not divide evenly, and yet the call returns normally with the head
    counts of the block changed from 5 to 2. *)
Lemma tp_uneven_heads_no_error :
  ¬ (2 | 5)
  ∧ ∃ m',
      parallelize_llama (sample_model 1 5) (sample_mesh "tp" 2 0)
        (sample_dims 1 2 1) (sample_config "none" "" "manual" "1f1b") ∅
      = (Ok m', m', ∅)
      ∧ (λ nb, (n_heads (attention nb.2), n_kv_heads (attention nb.2)))
          <$> Transformer.layers m' = [(2, 2)]
      ∧ (λ nb, (n_heads (attention nb.2), n_kv_heads (attention nb.2)))
          <$> Transformer.layers (sample_model 1 5) = [(5, 5)].
Proof.
  split; [intros [q Hq]; lia|].
  eexists. split; [reflexivity|]. split; reflexivity.
Qed.

(** ** The operation-based policy *)

Lemma mm_count_key_inj (mode1 mode2 : string) :
  mode1 +:+ "_mm_count" = mode2 +:+ "_mm_count" → mode1 = mode2.
Proof. apply append_inj_r. Qed.

Lemma mm_occurrence_0 (c : string * string) (rest : list (string * string))
    (mode : string) :
  mm_occurrence (c :: rest) 0 mode
  = if bool_decide (c = (mode, aten_mm_default)) then 1 else 0.
Proof.
  unfold mm_occurrence. simpl. rewrite take_0, filter_cons, filter_nil.
  case_bool_decide; case_decide; done.
Qed.

Lemma mm_occurrence_S (c : string * string) (rest : list (string * string))
    (i : nat) (mode : string) :
  mm_occurrence (c :: rest) (S i) mode
  = (if bool_decide (c = (mode, aten_mm_default)) then 1 else 0)
    + mm_occurrence rest i mode.
Proof.
  unfold mm_occurrence. rewrite firstn_cons, filter_cons.
  case_bool_decide; case_decide; try done.
  rewrite length_cons. lia.
Qed.

Lemma getitem_default_insert_eq (meta : gmap string Z) (k : string) (v : Z) :
  getitem_default (<[k := v]> meta) k = v.
Proof. unfold getitem_default. by rewrite lookup_insert_eq. Qed.

Lemma getitem_default_insert_ne (meta : gmap string Z) (k k' : string) (v : Z) :
  k ≠ k' → getitem_default (<[k := v]> meta) k' = getitem_default meta k'.
Proof. intros Hne. unfold getitem_default. by rewrite lookup_insert_ne. Qed.

Lemma bool_decide_even (x : Z) : bool_decide (x `mod` 2 = 0) = Z.even x.
Proof.
  rewrite Zeven_mod. destruct (Z.eqb_spec (x `mod` 2) 0).
  - by rewrite bool_decide_eq_true_2.
  - by rewrite bool_decide_eq_false_2.
Qed.

Lemma policy_decisions_cons (meta : gmap string Z) (mode func : string)
    (rest : list (string * string)) :
  policy_decisions meta ((mode, func) :: rest)
  = (_custom_policy meta mode func).1
    :: policy_decisions (_custom_policy meta mode func).2 rest.
Proof. reflexivity. Qed.

Lemma custom_policy_mm (meta : gmap string Z) (mode : string) :
  _custom_policy meta mode aten_mm_default
  = (Z.odd (getitem_default meta (mode +:+ "_mm_count") + 1),
     <[mode +:+ "_mm_count" :=
         getitem_default meta (mode +:+ "_mm_count") + 1]> meta).
Proof.
  unfold _custom_policy. rewrite !bool_decide_eq_true_2 by (done || set_solver).
  f_equal. rewrite getitem_default_insert_eq. simpl.
  by rewrite bool_decide_even, Z.negb_even.
Qed.

Lemma custom_policy_other (meta : gmap string Z) (mode func : string) :
  func ≠ aten_mm_default →
  _custom_policy meta mode func
  = (bool_decide (func ∈ no_recompute_list), meta).
Proof.
  intros Hne. unfold _custom_policy.
  rewrite !(bool_decide_eq_false_2 _ Hne). by rewrite andb_true_r.
Qed.

(** The decision of the call at position [i], from any [meta]. *)
Lemma policy_decisions_lookup (calls : list (string * string))
    (meta : gmap string Z) (i : nat) (mode func : string) :
  calls !! i = Some (mode, func) →
  policy_decisions meta calls !! i
  = Some (if bool_decide (func = aten_mm_default)
          then Z.odd (getitem_default meta (mode +:+ "_mm_count")
                      + mm_occurrence calls i mode)
          else bool_decide (func ∈ no_recompute_list)).
Proof.
  revert meta i. induction calls as [|[mode0 func0] calls IH]; intros meta i Hi.
  - done.
  - rewrite policy_decisions_cons. destruct i as [|i].
    + injection Hi as -> ->. rewrite mm_occurrence_0.
      destruct (decide (func = aten_mm_default)) as [->|Hne].
      * rewrite custom_policy_mm, !bool_decide_eq_true_2 by done. done.
      * rewrite custom_policy_other by done.
        rewrite (bool_decide_eq_false_2 _ Hne). done.
    + simpl in Hi. rewrite mm_occurrence_S.
      destruct (decide (func0 = aten_mm_default)) as [->|Hne].
      * rewrite custom_policy_mm. simpl. rewrite (IH _ _ Hi). f_equal.
        destruct (bool_decide (func = aten_mm_default)); [|done]. f_equal.
        destruct (decide (mode0 = mode)) as [->|Hm].
        -- rewrite getitem_default_insert_eq, bool_decide_eq_true_2 by done.
           lia.
        -- rewrite getitem_default_insert_ne.
           ++ rewrite bool_decide_eq_false_2 by congruence. lia.
           ++ intros Hk. apply mm_count_key_inj in Hk. done.
      * rewrite custom_policy_other by done. simpl. rewrite (IH _ _ Hi). f_equal.
        destruct (bool_decide (func = aten_mm_default)); [|done]. f_equal.
        rewrite bool_decide_eq_false_2 by congruence. lia.
Qed.

(** C3.  In one checkpoint context, the call at position [i] for
    operator [func] in mode [mode] is decided as follows: a matrix
    multiplication is saved exactly when its rank among the matrix
    multiplications of that mode so far is odd; the three other
    operators of [no_recompute_list] are always saved; an operator outside
    the list is never saved. *)
Theorem selective_op_policy (calls : list (string * string)) (i : nat)
    (mode func : string) :
  calls !! i = Some (mode, func) →
  let saved := selective_checkpointing_context_fn calls !! i in
  (func = aten_mm_default → saved = Some (Z.odd (mm_occurrence calls i mode)))
  ∧ (func ∈ no_recompute_list → func ≠ aten_mm_default → saved = Some true)
  ∧ (func ∉ no_recompute_list → saved = Some false).
Proof.
  intros Hi saved. subst saved. unfold selective_checkpointing_context_fn.
  rewrite (policy_decisions_lookup _ _ _ _ _ Hi).
  unfold getitem_default. rewrite lookup_empty. simpl. rewrite Z.add_0_l.
  repeat split.
  - intros ->. by rewrite bool_decide_eq_true_2.
  - intros Hin Hne.
    by rewrite (bool_decide_eq_false_2 _ Hne), (bool_decide_eq_true_2 _ Hin).
  - intros Hout.
    rewrite (bool_decide_eq_false_2 _ Hout). case_bool_decide as Hmm; [|done].
    subst func. exfalso. apply Hout. set_solver.
Qed.

Lemma selective_op_policy_witness :
  selective_checkpointing_context_fn
    [("forward", aten_mm_default); ("forward", aten_mm_default);
     ("forward", aten_mm_default); ("forward", aten_mm_default)] !! 3%nat
  = Some false.
Proof.
  destruct (selective_op_policy
              [("forward", aten_mm_default); ("forward", aten_mm_default);
               ("forward", aten_mm_default); ("forward", aten_mm_default)]
              3 "forward" aten_mm_default eq_refl) as (Hmm & _ & _).
  exact (Hmm eq_refl).
Defined.

(** Four matrix multiplications in one pass, with other operators around
    them. *)
Example selective_op_four_mm :
  selective_checkpointing_context_fn
    [("forward", aten_mm_default);
     ("forward", aten_scaled_dot_product_flash_attention_default);
     ("forward", aten_mm_default);
     ("forward", "aten.add.Tensor");
     ("forward", aten_mm_default);
     ("forward", c10d_functional_reduce_scatter_tensor_default);
     ("forward", aten_mm_default);
     ("forward", aten_scaled_dot_product_efficient_attention_default)]
  = [true; true; false; false; true; true; false; true].
Proof. vm_compute. reflexivity. Qed.

(** ** The cadence policy *)

Lemma setdefault_count (attrs : gmap string Z) :
  setdefault "_count" 0 attrs !!! "_count" = default 0 (attrs !! "_count").
Proof.
  unfold setdefault. rewrite lookup_total_alt.
  destruct (attrs !! "_count") as [c|] eqn:Hc.
  - by rewrite Hc.
  - by rewrite lookup_insert_eq.
Qed.

Lemma insert_setdefault_count (attrs : gmap string Z) (v : Z) :
  <["_count" := v]> (setdefault "_count" 0 attrs) = <["_count" := v]> attrs.
Proof.
  unfold setdefault. destruct (attrs !! "_count"); [done|].
  by rewrite insert_insert_eq.
Qed.

Section Cadence.

(** A configuration in selective mode whose option is a digit string,
    read as the cadence [N]. *)
Context (dp_mesh : DeviceMesh) (mp_policy : MixedPrecisionPolicy).
Context (job_config : JobConfig) (N : Z).
Let config := activation_checkpoint job_config.
Hypothesis Hmode : mode config = "selective".
Hypothesis Hdigit : isdigit (selective_ac_option config) = true.
Hypothesis Hint : int (selective_ac_option config) = Ok N.
Hypothesis HN : 0 ≤ N.

(** The decision taken on the count [c] reached by a call. *)
Let decide_on (c : Z) (b : TransformerBlock) : TransformerBlock :=
  if bool_decide (N = 0) || bool_decide (c `mod` N = 0)
  then ptd_checkpoint_wrapper b None else b.

(** One call: the counter goes up by one and the block is wrapped when
    [N] is zero or divides the new count, and is returned as it is
    otherwise. *)
Lemma checkpoint_wrapper_cadence (module : TransformerBlock)
    (attrs : gmap string Z) :
  checkpoint_wrapper module config attrs
  = (Ok (decide_on (default 0 (attrs !! "_count") + 1) module),
     <["_count" := default 0 (attrs !! "_count") + 1]> attrs).
Proof.
  unfold checkpoint_wrapper, decide_on.
  rewrite Hmode, Hdigit, Hint.
  rewrite (bool_decide_eq_false_2 (selective_ac_option config = "op"))
    by (intros Hop; rewrite Hop in Hdigit; discriminate Hdigit).
  rewrite (bool_decide_eq_true_2 ("selective" = "selective")) by done.
  rewrite (bool_decide_eq_false_2 ("selective" = "full")) by done.
  simpl. rewrite (proj2 (Z.leb_le 0 N) HN). simpl.
  rewrite insert_setdefault_count, setdefault_count.
  rewrite lookup_total_insert_eq.
  by destruct (bool_decide (N = 0) || bool_decide (_ `mod` N = 0)).
Qed.

Lemma dp_block_cadence (b : TransformerBlock) (attrs : gmap string Z) :
  dp_block dp_mesh mp_policy job_config b attrs
  = (Ok tt,
     fully_shard (decide_on (default 0 (attrs !! "_count") + 1) b)
       dp_mesh mp_policy true,
     <["_count" := default 0 (attrs !! "_count") + 1]> attrs).
Proof.
  unfold dp_block. fold config.
  rewrite checkpoint_wrapper_cadence, Hmode. done.
Qed.

(** The data-parallel loop from a counter at [c]: block number [k],
    counted from zero, meets the count [c + k + 1]. *)
Lemma dp_loop_cadence (ls : list (string * TransformerBlock))
    (attrs : gmap string Z) :
  for_named_children (dp_block dp_mesh mp_policy job_config) ls attrs
  = (Ok tt,
     imap (λ k nb,
             (nb.1,
              fully_shard
                (decide_on (default 0 (attrs !! "_count") + Z.of_nat (S k))
                   nb.2)
                dp_mesh mp_policy true)) ls,
     match ls with
     | [] => attrs
     | _ => <["_count" := default 0 (attrs !! "_count")
                          + Z.of_nat (length ls)]> attrs
     end).
Proof.
  revert attrs. induction ls as [|[name b] ls IH]; intros attrs; [done|].
  cbn [for_named_children].
  rewrite dp_block_cadence, IH, lookup_insert_eq. cbn [default]. unfold id.
  f_equal; [f_equal|].
  - cbn [imap]. f_equal. apply imap_ext. intros k [name' b'] _.
    unfold compose. cbn [fst snd]. do 3 f_equal. lia.
  - destruct ls as [|nb ls].
    + done.
    + rewrite insert_insert_eq. f_equal. rewrite !length_cons. lia.
Qed.

End Cadence.

(** The counter a pass leaves is the one it found plus the number of
    blocks it visited. *)
Lemma count_after_pass (ls : list (string * TransformerBlock))
    (attrs : gmap string Z) :
  default 0
    (match ls with
     | [] => attrs
     | _ => <["_count" := default 0 (attrs !! "_count")
                          + Z.of_nat (length ls)]> attrs
     end !! "_count")
  = default 0 (attrs !! "_count") + Z.of_nat (length ls).
Proof.
  destruct ls as [|nb ls].
  - simpl. lia.
  - by rewrite lookup_insert_eq.
Qed.

(** C4.  Under the cadence policy with option a digit string, read as
    [N]: every call of [checkpoint_wrapper] adds one to its counter and
    wraps the block when [N] is zero or divides the new count, returning
    the block itself otherwise; so in a pass that starts with no counter
    yet the block visited in position [k], counted from one, is wrapped
    exactly when [N = 0] or [k mod N = 0], and for [N = 2] and five
    blocks the wrapped status is false, true, false, true, false. *)
Theorem cadence_policy (dp_mesh : DeviceMesh) (mp_policy : MixedPrecisionPolicy)
    (job_config : JobConfig) (ls : list (string * TransformerBlock))
    (attrs : gmap string Z) :
  mode (activation_checkpoint job_config) = "selective" →
  isdigit (selective_ac_option (activation_checkpoint job_config)) = true →
  attrs !! "_count" = None →
  ∃ N ls' attrs',
    int (selective_ac_option (activation_checkpoint job_config)) = Ok N
    ∧ 0 ≤ N
    ∧ (∀ module attrs0,
         checkpoint_wrapper module (activation_checkpoint job_config) attrs0
         = (Ok (if bool_decide (N = 0) ||
                   bool_decide
                     ((default 0 (attrs0 !! "_count") + 1) `mod` N = 0)
                then ptd_checkpoint_wrapper module None else module),
            <["_count" := default 0 (attrs0 !! "_count") + 1]> attrs0))
    ∧ for_named_children (dp_block dp_mesh mp_policy job_config) ls attrs
      = (Ok tt, ls', attrs')
    ∧ length ls' = length ls
    ∧ (ls ≠ [] → attrs' !! "_count" = Some (Z.of_nat (length ls)))
    ∧ (∀ k name b,
         ls !! k = Some (name, b) →
         ls' !! k
         = Some (name,
                 fully_shard
                   (if bool_decide (N = 0) ||
                       bool_decide (Z.of_nat (S k) `mod` N = 0)
                    then ptd_checkpoint_wrapper b None else b)
                   dp_mesh mp_policy true))
    ∧ cadence_first_pass.1.1 = Ok cadence_first_pass.1.2
    ∧ wrapped_status cadence_first_pass.1.2 = [false; true; false; true; false].
Proof.
  intros Hmode Hd Hfresh.
  destruct (isdigit_int _ Hd) as (N & Hint & HN).
  eexists N, _, _. split; [done|]. split; [done|]. split.
  { intros module attrs0. by apply checkpoint_wrapper_cadence. }
  split; [by apply (dp_loop_cadence _ _ _ N)|].
  rewrite Hfresh. cbn [default]. unfold id.
  split; [by rewrite length_imap|]. split.
  - intros Hne. destruct ls; [done|]. by rewrite lookup_insert_eq.
  - split.
    + intros k name b Hk. rewrite list_lookup_imap, Hk. simpl.
      by rewrite Z.add_0_l.
    + split; vm_compute; reflexivity.
Qed.

Lemma cadence_policy_witness :
  ∃ ls' attrs',
    for_named_children
      (dp_block (sample_mesh "dp" 2 0)
         {| param_dtype := float32; reduce_dtype := float32 |}
         (sample_config "selective" "3" "manual" "1f1b"))
      (Transformer.layers (sample_model 3 32)) ∅
    = (Ok tt, ls', attrs')
    ∧ attrs' !! "_count" = Some 3.
Proof.
  destruct (cadence_policy (sample_mesh "dp" 2 0)
              {| param_dtype := float32; reduce_dtype := float32 |}
              (sample_config "selective" "3" "manual" "1f1b")
              (Transformer.layers (sample_model 3 32)) ∅)
    as (N & ls' & attrs' & _ & _ & _ & Hrun & _ & Hcount & _).
  - reflexivity.
  - reflexivity.
  - reflexivity.
  - exists ls', attrs'. split; [exact Hrun|]. apply Hcount. discriminate.
Defined.

(** C5 (as amended).  The counter is an attribute of the function
    [checkpoint_wrapper]: a pass finds it where the previous pass left it
    (at zero if there was none), meets the counts [c + 1], [c + 2], ... on
    its blocks and leaves it at [c] plus the number of blocks.  The second
    of two successive passes over the same blocks therefore decides block
    [k] on [c + n + k], and repeats the first pass when [N] is zero or
    divides the number [n] of blocks. *)
Theorem cadence_counter_carries (dp_mesh : DeviceMesh)
    (mp_policy : MixedPrecisionPolicy) (job_config : JobConfig)
    (ls : list (string * TransformerBlock)) (attrs : gmap string Z) :
  mode (activation_checkpoint job_config) = "selective" →
  isdigit (selective_ac_option (activation_checkpoint job_config)) = true →
  ∃ N ls1 attrs1 ls2 attrs2,
    int (selective_ac_option (activation_checkpoint job_config)) = Ok N
    ∧ 0 ≤ N
    ∧ for_named_children (dp_block dp_mesh mp_policy job_config) ls attrs
      = (Ok tt, ls1, attrs1)
    ∧ for_named_children (dp_block dp_mesh mp_policy job_config) ls attrs1
      = (Ok tt, ls2, attrs2)
    ∧ (let c := default 0 (attrs !! "_count") in
       let n := Z.of_nat (length ls) in
       default 0 (attrs1 !! "_count") = c + n
       ∧ default 0 (attrs2 !! "_count") = c + n + n
       ∧ (∀ k name b,
            ls !! k = Some (name, b) →
            ls1 !! k
            = Some (name,
                    fully_shard
                      (if bool_decide (N = 0) ||
                          bool_decide ((c + Z.of_nat (S k)) `mod` N = 0)
                       then ptd_checkpoint_wrapper b None else b)
                      dp_mesh mp_policy true)
            ∧ ls2 !! k
              = Some (name,
                      fully_shard
                        (if bool_decide (N = 0) ||
                            bool_decide ((c + n + Z.of_nat (S k)) `mod` N = 0)
                         then ptd_checkpoint_wrapper b None else b)
                        dp_mesh mp_policy true))
       ∧ (N = 0 ∨ (N | n) → ls2 = ls1)).
Proof.
  intros Hmode Hd.
  destruct (isdigit_int _ Hd) as (N & Hint & HN).
  eexists N, _, _, _, _. split; [done|]. split; [done|].
  split; [by apply (dp_loop_cadence _ _ _ N)|].
  split; [by apply (dp_loop_cadence _ _ _ N)|].
  intros c n.
  split; [apply count_after_pass|].
  split; [by rewrite 2!count_after_pass|].
  rewrite count_after_pass. fold c n. split.
  - intros k name b Hk. rewrite !list_lookup_imap, Hk. done.
  - intros HNn. apply imap_ext. intros k [name b] _. cbn [fst snd].
    do 2 f_equal. destruct HNn as [->|[q Hq]]; [done|].
    do 2 f_equal. rewrite Hq.
    replace (c + q * N + Z.of_nat (S k)) with (c + Z.of_nat (S k) + q * N)
      by lia.
    by rewrite Z_mod_plus_full.
Qed.

Lemma cadence_counter_carries_witness :
  ∃ ls1 attrs1 ls2 attrs2,
    for_named_children
      (dp_block (sample_mesh "dp" 2 0)
         {| param_dtype := float32; reduce_dtype := float32 |}
         (sample_config "selective" "2" "manual" "1f1b"))
      (Transformer.layers (sample_model 4 32)) ∅
    = (Ok tt, ls1, attrs1)
    ∧ for_named_children
        (dp_block (sample_mesh "dp" 2 0)
           {| param_dtype := float32; reduce_dtype := float32 |}
           (sample_config "selective" "2" "manual" "1f1b"))
        (Transformer.layers (sample_model 4 32)) attrs1
      = (Ok tt, ls2, attrs2)
    ∧ default 0 (attrs2 !! "_count") = 8.
Proof.
  destruct (cadence_counter_carries (sample_mesh "dp" 2 0)
              {| param_dtype := float32; reduce_dtype := float32 |}
              (sample_config "selective" "2" "manual" "1f1b")
              (Transformer.layers (sample_model 4 32)) ∅)
    as (N & ls1 & attrs1 & ls2 & attrs2 & _ & _ & H1 & H2 & _ & Hc & _).
  - reflexivity.
  - reflexivity.
  - exists ls1, attrs1, ls2, attrs2. split; [exact H1|]. split; [exact H2|].
    exact Hc.
Defined.

(** C5 (as stated) fails: of two successive passes with a cadence of 2,
    each over five fresh blocks, the first wraps the second and the
    fourth block and leaves the counter at 5, and the second wraps the
    first, the third and the fifth. *)
Lemma cadence_second_pass_differs :
  cadence_first_pass.1.1 = Ok cadence_first_pass.1.2
  ∧ cadence_second_pass.1.1 = Ok cadence_second_pass.1.2
  ∧ wrapped_status cadence_first_pass.1.2 = [false; true; false; true; false]
  ∧ wrapped_status cadence_second_pass.1.2 = [true; false; true; false; true]
  ∧ cadence_first_pass.2 !! "_count" = Some 5
  ∧ wrapped_status cadence_second_pass.1.2
    ≠ wrapped_status cadence_first_pass.1.2.
Proof. vm_compute. repeat split; discriminate. Qed.


(** * Further properties *)

(** ** [checkpoint_wrapper]: what it raises and what it leaves alone *)


(** ** The cadence policy: how many blocks a pass wraps *)

Lemma div_succ (n N : Z) :
  0 < N → 0 ≤ n →
  (n + 1) `div` N
  = n `div` N + (if bool_decide ((n + 1) `mod` N = 0) then 1 else 0).
Proof.
  intros HN Hn.
  pose proof (Z.div_mod n N) as Hdm.
  pose proof (Z.mod_pos_bound n N HN) as Hr.
  destruct (decide (n `mod` N = N - 1)) as [Hlast|Hnot].
  - assert (Hdiv : (n + 1) `div` N = n `div` N + 1)
      by (symmetry; apply (Z.div_unique _ _ _ 0); lia).
    assert (Hmod : (n + 1) `mod` N = 0)
      by (symmetry; apply (Z.mod_unique _ _ (n `div` N + 1)); lia).
    rewrite Hdiv, bool_decide_eq_true_2 by done. done.
  - assert (Hdiv : (n + 1) `div` N = n `div` N)
      by (symmetry; apply (Z.div_unique _ _ _ (n `mod` N + 1)); lia).
    assert (Hmod : (n + 1) `mod` N = n `mod` N + 1)
      by (symmetry; apply (Z.mod_unique _ _ (n `div` N)); lia).
    rewrite Hdiv, bool_decide_eq_false_2 by lia. lia.
Qed.

Lemma checkpointed_fully_shard (b : TransformerBlock) (mesh : DeviceMesh)
    (mp_policy : MixedPrecisionPolicy) (reshard : bool) :
  checkpointed (fully_shard b mesh mp_policy reshard) = checkpointed b.
Proof.
  unfold checkpointed, fully_shard. simpl. apply bool_decide_ext.
  rewrite elem_of_cons. split; [intros [?|?]; [done|done] | auto].
Qed.

Lemma checkpointed_ptd (b : TransformerBlock) :
  checkpointed (ptd_checkpoint_wrapper b None) = true.
Proof.
  unfold checkpointed, ptd_checkpoint_wrapper.
  apply bool_decide_eq_true_2, elem_of_cons. auto.
Qed.

(** X2.  A pass of the data-parallel loop under a cadence of [N] that
    starts with no counter yet, over [n] blocks none of which is
    checkpointed, leaves exactly [n // N] of them checkpointed when [N] is
    positive, and all [n] of them when [N] is zero. *)
Theorem cadence_wraps_quotient (dp_mesh : DeviceMesh)
    (mp_policy : MixedPrecisionPolicy) (job_config : JobConfig) (N : Z)
    (ls : list (string * TransformerBlock)) (attrs : gmap string Z) :
  mode (activation_checkpoint job_config) = "selective" →
  isdigit (selective_ac_option (activation_checkpoint job_config)) = true →
  int (selective_ac_option (activation_checkpoint job_config)) = Ok N →
  attrs !! "_count" = None →
  Forall (λ nb, checkpointed nb.2 = false) ls →
  Z.of_nat
    (length
       (filter (λ nb, checkpointed nb.2 = true)
          (for_named_children (dp_block dp_mesh mp_policy job_config)
             ls attrs).1.2))
  = if bool_decide (N = 0) then Z.of_nat (length ls)
    else Z.of_nat (length ls) `div` N.
Proof.
  intros Hmode Hd Hint Hfresh Hplain.
  destruct (isdigit_int _ Hd) as (N' & Hint' & HN).
  assert (N' = N) as -> by congruence.
  rewrite (dp_loop_cadence dp_mesh mp_policy job_config N) by done.
  rewrite Hfresh. cbn [default fst snd]. unfold id.
  induction ls as [|[name b] ls IH] using rev_ind.
  - simpl. case_bool_decide; [done|]. by rewrite Z.div_0_l.
  - apply Forall_app in Hplain as [Hls Hb].
    rewrite Forall_singleton in Hb.
    assert (Hb' : checkpointed b = false) by exact Hb.
    rewrite imap_app, list.filter_app, !length_app, !Nat2Z.inj_add, (IH Hls).
    cbn [imap fst snd]. rewrite filter_cons, filter_nil. cbn beta. cbn [fst snd].
    rewrite checkpointed_fully_shard, Nat.add_0_r.
    destruct (decide (N = 0)) as [->|HN0].
    + rewrite !(bool_decide_eq_true_2 (0 = 0)) by done. cbn [orb].
      rewrite checkpointed_ptd, decide_True by done. cbn [length]. lia.
    + rewrite !(bool_decide_eq_false_2 (N = 0)) by done. cbn [orb].
      replace (0 + Z.of_nat (S (length ls))) with (Z.of_nat (length ls) + 1)
        by lia.
      change (Z.of_nat (length [(name, b)])) with 1.
      rewrite div_succ by lia. f_equal.
      destruct (bool_decide (_ `mod` N = 0)).
      * rewrite checkpointed_ptd, decide_True by done. done.
      * rewrite Hb', decide_False by done. done.
Qed.

Lemma cadence_wraps_quotient_witness :
  Z.of_nat
    (length
       (filter (λ nb, checkpointed nb.2 = true)
          (for_named_children
             (dp_block (sample_mesh "dp" 2 0)
                {| param_dtype := float32; reduce_dtype := float32 |}
                (sample_config "selective" "3" "manual" "1f1b"))
             (Transformer.layers (sample_model 7 32)) ∅).1.2))
  = 2.
Proof.
  apply (cadence_wraps_quotient (sample_mesh "dp" 2 0)
           {| param_dtype := float32; reduce_dtype := float32 |}
           (sample_config "selective" "3" "manual" "1f1b") 3
           (Transformer.layers (sample_model 7 32)) ∅).
  - reflexivity.
  - reflexivity.
  - reflexivity.
  - reflexivity.
  - repeat constructor.
Defined.

(** ** The operation-based policy: the modes do not disturb each other *)

Lemma policy_decisions_mode_irrelevant (ops : list string) (m m' : string)
    (meta meta' : gmap string Z) :
  getitem_default meta (m +:+ "_mm_count")
  = getitem_default meta' (m' +:+ "_mm_count") →
  policy_decisions meta ((λ f, (m, f)) <$> ops)
  = policy_decisions meta' ((λ f, (m', f)) <$> ops).
Proof.
  revert meta meta'. induction ops as [|f ops IH]; intros meta meta' Hkey;
    [done|].
  rewrite !fmap_cons, !policy_decisions_cons.
  destruct (decide (f = aten_mm_default)) as [->|Hne].
  - rewrite !custom_policy_mm. simpl. rewrite Hkey. f_equal.
    apply IH. by rewrite !getitem_default_insert_eq.
  - rewrite !custom_policy_other by done. simpl. f_equal. by apply IH.
Qed.

Lemma policy_decisions_other_mode (ops1 ops2 : list string) (m1 m2 : string)
    (meta : gmap string Z) :
  m1 ≠ m2 →
  policy_decisions meta
    (((λ f, (m1, f)) <$> ops1) ++ ((λ f, (m2, f)) <$> ops2))
  = policy_decisions meta ((λ f, (m1, f)) <$> ops1)
    ++ policy_decisions meta ((λ f, (m2, f)) <$> ops2).
Proof.
  intros Hm. revert meta. induction ops1 as [|f ops1 IH]; intros meta; [done|].
  rewrite fmap_cons, <- app_comm_cons, !policy_decisions_cons, IH.
  rewrite <- app_comm_cons. do 2 f_equal.
  apply policy_decisions_mode_irrelevant.
  destruct (decide (f = aten_mm_default)) as [->|Hne].
  - rewrite custom_policy_mm. simpl.
    apply getitem_default_insert_ne.
    intros Hk. by apply mm_count_key_inj in Hk.
  - by rewrite custom_policy_other.
Qed.

(** X3.  In one checkpoint context the pass in one mode and the pass in
    another mode over the same operators take the same decisions: the
    matrix multiplications of each mode are counted on their own, so a
    recomputation saves exactly what the forward pass saved. *)
Theorem policy_replay_agrees (ops : list string) (m1 m2 : string) :
  m1 ≠ m2 →
  selective_checkpointing_context_fn
    (((λ f, (m1, f)) <$> ops) ++ ((λ f, (m2, f)) <$> ops))
  = selective_checkpointing_context_fn ((λ f, (m1, f)) <$> ops)
    ++ selective_checkpointing_context_fn ((λ f, (m1, f)) <$> ops).
Proof.
  intros Hm. unfold selective_checkpointing_context_fn.
  rewrite policy_decisions_other_mode by done. f_equal.
  by apply policy_decisions_mode_irrelevant.
Qed.

Lemma policy_replay_agrees_witness :
  selective_checkpointing_context_fn
    [("forward", aten_mm_default); ("forward", aten_mm_default);
     ("recompute", aten_mm_default); ("recompute", aten_mm_default)]
  = [true; false; true; false].
Proof.
  apply (policy_replay_agrees [aten_mm_default; aten_mm_default]
           "forward" "recompute").
  discriminate.
Defined.

(** ** The traced partitioner *)

Lemma mesh_getitem_inv (mesh sub : DeviceMesh) (name : string) :
  mesh_getitem mesh name = Ok sub →
  ∃ d, sub = [d] ∧ dim_name d = name ∧ d ∈ mesh.
Proof.
  unfold mesh_getitem.
  destruct (List.find _ mesh) as [d|] eqn:Hfind; [|discriminate].
  intros [= <-]. apply find_some in Hfind as [Hin Hname].
  exists d. split; [done|]. split.
  - by apply bool_decide_eq_true_1 in Hname.
  - by apply list_elem_of_In.
Qed.

Lemma mesh_getitem_Raise (mesh : DeviceMesh) (name : string) (e : exn) :
  mesh_getitem mesh name = Raise e → e = KeyError ∧ name ∉ mesh_dim_names mesh.
Proof.
  unfold mesh_getitem, mesh_dim_names.
  destruct (List.find _ mesh) as [d|] eqn:Hfind; [discriminate|].
  intros [= <-]. split; [done|].
  rewrite list_elem_of_fmap. intros (d & -> & Hd%list_elem_of_In).
  apply (find_none _ _ Hfind) in Hd. by apply bool_decide_eq_false_1 in Hd.
Qed.


(** Inserting the same value under the keys [f i], for [i] along a list. *)
Lemma lookup_foldl_insert {V : Type} (f : Z → string) (v : V) (l : list Z)
    (d : gmap string V) (key : string) :
  foldl (λ d i, <[f i := v]> d) d l !! key
  = if bool_decide (key ∈ f <$> l) then Some v else d !! key.
Proof.
  revert d. induction l as [|i l IH]; intros d.
  - cbn [foldl].
    rewrite fmap_nil, bool_decide_eq_false_2 by apply not_elem_of_nil. done.
  - cbn [foldl]. rewrite IH, fmap_cons.
    destruct (decide (key ∈ f <$> l)) as [Hin|Hout].
    + rewrite (bool_decide_eq_true_2 _ Hin).
      rewrite bool_decide_eq_true_2 by (apply elem_of_cons; auto). done.
    + rewrite (bool_decide_eq_false_2 _ Hout).
      destruct (decide (key = f i)) as [->|Hne].
      * rewrite lookup_insert_eq.
        rewrite bool_decide_eq_true_2 by (apply elem_of_cons; auto). done.
      * rewrite lookup_insert_ne by done.
        rewrite bool_decide_eq_false_2; [done|].
        rewrite elem_of_cons. intros [?|?]; done.
Qed.

Lemma dom_foldl_insert {V : Type} (f : Z → string) (v : V) (l : list Z)
    (d : gmap string V) :
  dom (foldl (λ d i, <[f i := v]> d) d l) = list_to_set (f <$> l) ∪ dom d.
Proof.
  revert d. induction l as [|i l IH]; intros d.
  - cbn [foldl]. by rewrite fmap_nil, list_to_set_nil, (left_id_L ∅ (∪)).
  - cbn [foldl]. rewrite IH, dom_insert_L, fmap_cons, list_to_set_cons.
    rewrite !(assoc_L (∪)). f_equal. apply (comm_L (∪)).
Qed.

(** What a successful call of the traced partitioner has computed. *)
Lemma tracer_Ok_inv (m : Transformer.t) (world_mesh : DeviceMesh)
    (parallel_dims : ParallelDims) (job_config : JobConfig) (device : string)
    (model_config : ModelConfig.t) (st : Stage) (sm : StageModel) :
  apply_pipeline_parallelism_tracer m world_mesh parallel_dims job_config
    device model_config = Ok (st, sm) →
  ∃ d pipe,
    mesh_getitem world_mesh "pp" = Ok [d]
    ∧ pp parallel_dims ≠ 0
    ∧ pipe_model pipe = m
    ∧ pipe_num_stages pipe = pp parallel_dims
    ∧ split_spec pipe
      = foldl (λ spec i,
                 <["layers." +:+
                   str (i * (Z.of_nat (length (Transformer.layers m))
                               `div` pp parallel_dims)) := BEGINNING]> spec)
          ∅ (range2 1 (pp parallel_dims))
    ∧ st = TracedStage {| traced_pipe := pipe;
                          traced_stage_index := dim_rank d;
                          traced_device := device |}
    ∧ sm = StageModuleOf pipe (dim_rank d).
Proof.
  unfold apply_pipeline_parallelism_tracer. intros H.
  bind_inv H as [] Hen.
  case_bool_decide; [discriminate|].
  bind_inv H as pp_mesh Hmesh.
  destruct (mesh_getitem_inv _ _ _ Hmesh) as (d & -> & _ & _).
  simpl in H. unfold floordiv in H. case_bool_decide; [discriminate|].
  simpl in H. injection H as <- <-. eexists d, _.
  repeat split; done.
Qed.

(** The split specification of a pipe the traced partitioner builds. *)
Lemma tracer_spec_lookup (m : Transformer.t) (world_mesh : DeviceMesh)
    (parallel_dims : ParallelDims) (job_config : JobConfig) (device : string)
    (model_config : ModelConfig.t) (s : TracedPipelineStage) (sm : StageModel)
    (key : string) :
  apply_pipeline_parallelism_tracer m world_mesh parallel_dims job_config
    device model_config = Ok (TracedStage s, sm) →
  split_spec (traced_pipe s) !! key
  = if bool_decide
         (key ∈ (λ i, "layers." +:+
                        str (i * (Z.of_nat (length (Transformer.layers m))
                                    `div` pp parallel_dims)))
                  <$> range2 1 (pp parallel_dims))
    then Some BEGINNING else None.
Proof.
  intros H.
  apply tracer_Ok_inv in H as (d & pipe & _ & _ & _ & _ & Hspec & Hs & _).
  injection Hs as ->. simpl. rewrite Hspec.
  rewrite (lookup_foldl_insert
             (λ i, "layers." +:+
                     str (i * (Z.of_nat (length (Transformer.layers m))
                                 `div` pp parallel_dims)))).
  by rewrite lookup_empty.
Qed.

(** X5.  A pipe the traced partitioner builds has [parallel_dims.pp]
    stages and one split point, marked [BEGINNING], at each of the layers
    [i * layers_per_rank] for [i] from 1 to [pp - 1], and nowhere else;
    with at least one layer per rank these are [pp - 1] distinct layers of
    the model, none of them layer 0. *)
Theorem tracer_split_points (m : Transformer.t) (world_mesh : DeviceMesh)
    (parallel_dims : ParallelDims) (job_config : JobConfig) (device : string)
    (model_config : ModelConfig.t) (s : TracedPipelineStage) (sm : StageModel) :
  apply_pipeline_parallelism_tracer m world_mesh parallel_dims job_config
    device model_config = Ok (TracedStage s, sm) →
  let layers_per_rank :=
    Z.of_nat (length (Transformer.layers m)) `div` pp parallel_dims in
  let spec := split_spec (traced_pipe s) in
  pipe_num_stages (traced_pipe s) = pp parallel_dims
  ∧ (∀ key,
       spec !! key
       = if bool_decide
              (key ∈ (λ i, "layers." +:+ str (i * layers_per_rank))
                       <$> range2 1 (pp parallel_dims))
         then Some BEGINNING else None)
  ∧ (0 < layers_per_rank →
     size spec = Z.to_nat (pp parallel_dims - 1)
     ∧ ∀ i, 1 ≤ i < pp parallel_dims →
            0 < i * layers_per_rank
                < Z.of_nat (length (Transformer.layers m))).
Proof.
  intros H layers_per_rank spec.
  assert (Hkeys := λ key, tracer_spec_lookup _ _ _ _ _ _ _ _ key H).
  apply tracer_Ok_inv in H
    as (d & pipe & _ & Hpp & _ & Hn & Hspec & Hs & _).
  injection Hs as ->. simpl in spec, Hkeys. subst spec.
  split; [done|]. split; [exact Hkeys|]. rewrite Hspec.
  fold layers_per_rank.
  intros Hlpr. split.
  + rewrite <- size_dom.
    rewrite (dom_foldl_insert
               (λ i, "layers." +:+ str (i * layers_per_rank))).
    rewrite dom_empty_L, (right_id_L ∅ (∪)).
    rewrite size_list_to_set, length_fmap; [apply length_seqZ|].
    apply NoDup_fmap_2_strong; [|apply NoDup_seqZ].
    intros i j _ _ Hij. apply layer_name_inj, str_inj in Hij. nia.
  + intros i Hi.
    assert (pp parallel_dims * layers_per_rank
            ≤ Z.of_nat (length (Transformer.layers m)))
      by (apply Z.mul_div_le; lia).
    nia.
Qed.

Lemma tracer_split_points_witness :
  ∃ s sm,
    apply_pipeline_parallelism_tracer (sample_model 8 32)
      (sample_mesh "pp" 4 1) (sample_dims 1 1 4)
      (sample_config "none" "" "tracer" "1f1b") "cuda" sample_model_config
    = Ok (TracedStage s, sm)
    ∧ split_spec (traced_pipe s) !! "layers.4" = Some BEGINNING
    ∧ split_spec (traced_pipe s) !! "layers.5" = None.
Proof.
  eexists _, _. split; [reflexivity|].
  destruct (tracer_split_points (sample_model 8 32) (sample_mesh "pp" 4 1)
              (sample_dims 1 1 4) (sample_config "none" "" "tracer" "1f1b")
              "cuda" sample_model_config _ _ eq_refl) as (_ & Hkeys & _).
  rewrite !Hkeys. split; reflexivity.
Defined.

(** X6.  With fewer layers than pipeline ranks, so that a rank gets no
    layer, the traced partitioner makes no check of its own and still
    requests a pipe of [parallel_dims.pp] stages, but every split point
    falls on layer 0: the split specification it passes has that one entry
    only. *)
Theorem tracer_too_few_layers (m : Transformer.t) (world_mesh : DeviceMesh)
    (parallel_dims : ParallelDims) (job_config : JobConfig) (device : string)
    (model_config : ModelConfig.t) (s : TracedPipelineStage) (sm : StageModel) :
  apply_pipeline_parallelism_tracer m world_mesh parallel_dims job_config
    device model_config = Ok (TracedStage s, sm) →
  Z.of_nat (length (Transformer.layers m)) < pp parallel_dims →
  2 ≤ pp parallel_dims →
  split_spec (traced_pipe s) = {[ "layers.0" := BEGINNING ]}
  ∧ pipe_num_stages (traced_pipe s) = pp parallel_dims.
Proof.
  intros H Hfew Hpp.
  assert (Hkeys := λ key, tracer_spec_lookup _ _ _ _ _ _ _ _ key H).
  split.
  2: { apply tracer_Ok_inv in H as (d & pipe & _ & _ & _ & Hn & _ & Hs & _).
       by injection Hs as ->. }
  apply map_eq. intros key. rewrite Hkeys.
  rewrite Z.div_small by lia.
  destruct (decide (key = "layers.0")) as [->|Hne].
  - rewrite lookup_singleton_eq, bool_decide_eq_true_2; [done|].
    apply list_elem_of_fmap. exists 1. split; [reflexivity|].
    apply elem_of_seqZ. lia.
  - rewrite lookup_singleton_ne by done.
    rewrite bool_decide_eq_false_2; [done|].
    intros (i & -> & _)%list_elem_of_fmap.
    rewrite Z.mul_0_r in Hne. by apply Hne.
Qed.

Lemma tracer_too_few_layers_witness :
  ∃ s sm,
    apply_pipeline_parallelism_tracer (sample_model 2 32)
      (sample_mesh "pp" 4 3) (sample_dims 1 1 4)
      (sample_config "none" "" "tracer" "1f1b") "cuda" sample_model_config
    = Ok (TracedStage s, sm)
    ∧ split_spec (traced_pipe s) = {[ "layers.0" := BEGINNING ]}.
Proof.
  eexists _, _. split; [reflexivity|].
  apply (tracer_too_few_layers (sample_model 2 32) (sample_mesh "pp" 4 3)
           (sample_dims 1 1 4) (sample_config "none" "" "tracer" "1f1b")
           "cuda" sample_model_config _ _ eq_refl); simpl; lia.
Defined.

(** ** The manual partitioner: which layers a stage holds *)

(** The layers of a stage the manual partitioner returns on a rank of
    the pipeline. *)
Lemma manual_Ok_layers (m : Transformer.t) (world_mesh : DeviceMesh)
    (parallel_dims : ParallelDims) (job_config : JobConfig) (device : string)
    (model_config : ModelConfig.t) (d : MeshDim) (s : ManualPipelineStage)
    (c : TransformerChunk.t) :
  apply_pipeline_parallelism_manual m world_mesh parallel_dims job_config
    device model_config = Ok (ManualStage s, ChunkModel c) →
  mesh_getitem world_mesh "pp" = Ok [d] →
  0 ≤ dim_rank d < pp parallel_dims →
  TransformerChunk.layers c
  = (λ j, (str j, (Transformer.layers m !!! Z.to_nat j).2))
      <$> seqZ (Z.of_nat (length (Transformer.layers m)) `div` pp parallel_dims
                * dim_rank d)
            (Z.of_nat (length (Transformer.layers m)) `div` pp parallel_dims).
Proof.
  intros H Hmesh Hrank.
  assert (Hinv := H). unfold apply_pipeline_parallelism_manual in Hinv.
  rewrite Hmesh, bind_Ok in Hinv. simpl get_local_rank in Hinv.
  rewrite bind_Ok, floordiv_Ok, bind_Ok in Hinv by lia.
  bind_inv Hinv as names Hnames.
  bind_inv Hinv as chunk Hchunk.
  bind_inv Hinv as [input output] Hex.
  assert (Htp : tp parallel_dims ≠ 0).
  { unfold stage_example_tensors in Hex.
    destruct (bool_decide (dim_rank d = 0)).
    - bind_inv Hex as q Hq. by apply floordiv_inv in Hq as [? _].
    - bind_inv Hex as q Hq. by apply floordiv_inv in Hq as [? _]. }
  simpl mesh_size in Hnames. rewrite Z.mul_1_r in Hnames.
  destruct (manual_stage_built m world_mesh parallel_dims job_config device
              model_config d names Hmesh Hrank Htp Hnames)
    as (s' & c' & Hrun & Hlayers & _).
  rewrite H in Hrun. by injection Hrun as <- <-.
Qed.

(** X7.  The stage a rank gets from the manual partitioner holds the
    layers [layers_per_rank * rank] to [layers_per_rank * (rank + 1) - 1]
    under their decimal indices and no other; so when [pp] does not
    divide the number of layers, no stage of any rank holds one of the
    last [L mod pp] layers. *)
Theorem manual_stage_keys (m : Transformer.t) (world_mesh : DeviceMesh)
    (parallel_dims : ParallelDims) (job_config : JobConfig) (device : string)
    (model_config : ModelConfig.t) (d : MeshDim) (s : ManualPipelineStage)
    (c : TransformerChunk.t) :
  apply_pipeline_parallelism_manual m world_mesh parallel_dims job_config
    device model_config = Ok (ManualStage s, ChunkModel c) →
  mesh_getitem world_mesh "pp" = Ok [d] →
  0 ≤ dim_rank d < pp parallel_dims →
  let n_layers := Z.of_nat (length (Transformer.layers m)) in
  let layers_per_rank := n_layers `div` pp parallel_dims in
  (TransformerChunk.layers c).*1
  = str <$> seqZ (layers_per_rank * dim_rank d) layers_per_rank
  ∧ ∀ j, n_layers - n_layers `mod` pp parallel_dims ≤ j →
         str j ∉ (TransformerChunk.layers c).*1.
Proof.
  intros H Hmesh Hrank n_layers layers_per_rank.
  rewrite (manual_Ok_layers _ _ _ _ _ _ _ _ _ H Hmesh Hrank).
  fold n_layers layers_per_rank.
  rewrite <- list_fmap_compose.
  split; [done|].
  intros j Hj (i & Hij & Hi%elem_of_seqZ)%list_elem_of_fmap.
  simpl in Hij. apply str_inj in Hij. subst i.
  assert (n_layers = pp parallel_dims * layers_per_rank
                     + n_layers `mod` pp parallel_dims)
    by (apply Z.div_mod; lia).
  assert (0 ≤ layers_per_rank) by (apply Z.div_pos; lia).
  nia.
Qed.

Lemma manual_stage_keys_witness :
  ∃ s c,
    apply_pipeline_parallelism_manual (sample_model 5 32)
      (sample_mesh "pp" 2 0) (sample_dims 1 1 2)
      (sample_config "none" "" "manual" "1f1b") "cuda" sample_model_config
    = Ok (ManualStage s, ChunkModel c)
    ∧ (TransformerChunk.layers c).*1 = ["0"; "1"]
    ∧ "4" ∉ (TransformerChunk.layers c).*1.
Proof.
  eexists _, _. split; [reflexivity|].
  destruct (manual_stage_keys (sample_model 5 32) (sample_mesh "pp" 2 0)
              (sample_dims 1 1 2) (sample_config "none" "" "manual" "1f1b")
              "cuda" sample_model_config
              {| dim_name := "pp"; dim_size := 2; dim_rank := 0 |} _ _ eq_refl)
    as [Hkeys Hdrop].
  - reflexivity.
  - simpl. lia.
  - split; [exact Hkeys|]. apply (Hdrop 4). reflexivity.
Defined.

(** X8.  The stages two different ranks get from the manual partitioner,
    for the same model and the same [parallel_dims], have no layer in
    common. *)
Theorem manual_stages_disjoint (m : Transformer.t)
    (world_mesh1 world_mesh2 : DeviceMesh) (parallel_dims : ParallelDims)
    (job_config : JobConfig) (device : string) (model_config : ModelConfig.t)
    (d1 d2 : MeshDim) (s1 s2 : ManualPipelineStage)
    (c1 c2 : TransformerChunk.t) :
  apply_pipeline_parallelism_manual m world_mesh1 parallel_dims job_config
    device model_config = Ok (ManualStage s1, ChunkModel c1) →
  apply_pipeline_parallelism_manual m world_mesh2 parallel_dims job_config
    device model_config = Ok (ManualStage s2, ChunkModel c2) →
  mesh_getitem world_mesh1 "pp" = Ok [d1] →
  mesh_getitem world_mesh2 "pp" = Ok [d2] →
  0 ≤ dim_rank d1 < pp parallel_dims →
  0 ≤ dim_rank d2 < pp parallel_dims →
  dim_rank d1 ≠ dim_rank d2 →
  ∀ key, key ∈ (TransformerChunk.layers c1).*1 →
         key ∉ (TransformerChunk.layers c2).*1.
Proof.
  intros H1 H2 Hm1 Hm2 Hr1 Hr2 Hne key.
  rewrite (manual_Ok_layers _ _ _ _ _ _ _ _ _ H1 Hm1 Hr1).
  rewrite (manual_Ok_layers _ _ _ _ _ _ _ _ _ H2 Hm2 Hr2).
  rewrite <- !list_fmap_compose.
  intros (i & -> & Hi%elem_of_seqZ)%list_elem_of_fmap
         (j & Hij & Hj%elem_of_seqZ)%list_elem_of_fmap.
  simpl in Hij. apply str_inj in Hij. subst j.
  assert (0 ≤ Z.of_nat (length (Transformer.layers m)) `div` pp parallel_dims)
    by (apply Z.div_pos; lia).
  nia.
Qed.

Lemma manual_stages_disjoint_witness :
  ∃ s1 c1 s2 c2,
    apply_pipeline_parallelism_manual (sample_model 2 32)
      (sample_mesh "pp" 2 0) (sample_dims 1 1 2)
      (sample_config "none" "" "manual" "1f1b") "cuda" sample_model_config
    = Ok (ManualStage s1, ChunkModel c1)
    ∧ apply_pipeline_parallelism_manual (sample_model 2 32)
        (sample_mesh "pp" 2 1) (sample_dims 1 1 2)
        (sample_config "none" "" "manual" "1f1b") "cuda" sample_model_config
      = Ok (ManualStage s2, ChunkModel c2)
    ∧ "0" ∉ (TransformerChunk.layers c2).*1.
Proof.
  eexists _, _, _, _. split; [reflexivity|]. split; [reflexivity|].
  apply (manual_stages_disjoint (sample_model 2 32) (sample_mesh "pp" 2 0)
           (sample_mesh "pp" 2 1) (sample_dims 1 1 2)
           (sample_config "none" "" "manual" "1f1b") "cuda"
           sample_model_config
           {| dim_name := "pp"; dim_size := 2; dim_rank := 0 |}
           {| dim_name := "pp"; dim_size := 2; dim_rank := 1 |}
           _ _ _ _ eq_refl eq_refl eq_refl eq_refl).
  - simpl. lia.
  - simpl. lia.
  - discriminate.
  - apply list_elem_of_here.
Defined.

(** ** The stage-local model: names, errors and what it computes *)








Lemma mem_stage_names_other (x : string) (has_embedding has_head : bool)
    (first count : Z) :
  String.prefix "layers." x = false →
  mem x (stage_names has_embedding first count has_head)
  = mem x (if has_embedding then ["tok_embeddings"] else [])
    || mem x (if has_head then ["norm"; "output"] else []).
Proof.
  intros Hx. unfold stage_names. rewrite !mem_app.
  replace (mem x ((λ j, "layers." +:+ str j) <$> seqZ first count)) with false;
    [done|].
  symmetry. unfold mem. apply bool_decide_eq_false_2.
  rewrite list_elem_of_fmap. intros (i & -> & _).
  rewrite !append_cons, append_nil in Hx. simpl in Hx.
  by destruct (str i).
Qed.

(** The chunk built from the names of a stage. *)
Lemma init_stage_names (m : Transformer.t) (has_embedding has_head : bool)
    (first count : Z) (device : string) (seqlen : Z) :
  0 ≤ first → 0 ≤ count →
  first + count ≤ Z.of_nat (length (Transformer.layers m)) →
  TransformerChunk.__init__ m (stage_names has_embedding first count has_head)
    device seqlen
  = Ok {| TransformerChunk.tok_embeddings :=
            if has_embedding then Some (Transformer.tok_embeddings m) else None;
          TransformerChunk.input_seqlen := seqlen;
          TransformerChunk.layers :=
            (λ j, (str j, (Transformer.layers m !!! Z.to_nat j).2))
              <$> seqZ first count;
          TransformerChunk.norm :=
            if has_head then Some (Transformer.norm m) else None;
          TransformerChunk.output :=
            if has_head then Some (Transformer.output m) else None |}.
Proof.
  intros Hfirst Hcount Hlen. unfold TransformerChunk.__init__.
  rewrite !mem_stage_names_other by done.
  assert (Hfill : TransformerChunk.fill_layers m
                    (stage_names has_embedding first count has_head) []
                  = Ok ((λ j, (str j, (Transformer.layers m !!! Z.to_nat j).2))
                          <$> seqZ first count)).
  { unfold stage_names. rewrite fill_layers_app.
    replace (TransformerChunk.fill_layers m
               (if has_embedding then ["tok_embeddings"] else []) [])
      with (Ok [] : result (list (string * TransformerBlock)))
      by (by destruct has_embedding).
    rewrite bind_Ok, fill_layers_app, <- (Z2Nat.id count) by done.
    rewrite fill_layers_range; [|lia|lia|intros; apply not_elem_of_nil].
    rewrite bind_Ok. by destruct has_head. }
  rewrite Hfill, bind_Ok. by destruct has_embedding, has_head.
Qed.

(** X11.  Cutting a chunk in two at a layer boundary does not change
    what is computed: the forward pass of the chunk of the second half,
    run on the result of the forward pass of the chunk of the first half,
    gives what the forward pass of the whole chunk gives, for any
    behaviour of the submodules; the first half carries the embedding (if
    any) and the second the norm and the output projection (if any). *)
Theorem forward_of_split {A : Type} (call_leaf : Leaf → A → A)
    (call_layer : TransformerBlock → Z → A → A) (to_float : A → A)
    (m : Transformer.t) (has_embedding has_head : bool)
    (first count1 count2 : Z) (device : string) (seqlen : Z) :
  0 ≤ first → 0 ≤ count1 → 0 ≤ count2 →
  first + count1 + count2 ≤ Z.of_nat (length (Transformer.layers m)) →
  ∃ whole half1 half2,
    TransformerChunk.__init__ m
      (stage_names has_embedding first (count1 + count2) has_head)
      device seqlen = Ok whole
    ∧ TransformerChunk.__init__ m
        (stage_names has_embedding first count1 false) device seqlen
      = Ok half1
    ∧ TransformerChunk.__init__ m
        (stage_names false (first + count1) count2 has_head) device seqlen
      = Ok half2
    ∧ ∀ input,
        TransformerChunk.forward call_leaf call_layer to_float whole input
        = TransformerChunk.forward call_leaf call_layer to_float half2
            (TransformerChunk.forward call_leaf call_layer to_float half1
               input).
Proof.
  intros Hfirst Hc1 Hc2 Hlen.
  eexists _, _, _.
  split; [apply init_stage_names; lia|].
  split; [apply init_stage_names; lia|].
  split; [apply init_stage_names; lia|].
  intros input. unfold TransformerChunk.forward. simpl.
  rewrite seqZ_app, fmap_app, foldl_app by done. done.
Qed.

Lemma forward_of_split_witness :
  ∃ whole half1 half2,
    TransformerChunk.__init__ (sample_model 4 32) (stage_names true 0 (2 + 2) true)
      "cuda" 2048 = Ok whole
    ∧ TransformerChunk.__init__ (sample_model 4 32) (stage_names true 0 2 false)
        "cuda" 2048 = Ok half1
    ∧ TransformerChunk.__init__ (sample_model 4 32)
        (stage_names false (0 + 2) 2 true) "cuda" 2048 = Ok half2
    ∧ ∀ input : list string,
        TransformerChunk.forward (λ l x, fqn l :: x) (λ _ _ x, "block" :: x)
          (λ x, "float" :: x) whole input
        = TransformerChunk.forward (λ l x, fqn l :: x) (λ _ _ x, "block" :: x)
            (λ x, "float" :: x) half2
            (TransformerChunk.forward (λ l x, fqn l :: x)
               (λ _ _ x, "block" :: x) (λ x, "float" :: x) half1 input).
Proof.
  apply (forward_of_split (λ l x, fqn l :: x) (λ _ _ x, "block" :: x)
           (λ x, "float" :: x) (sample_model 4 32) true true 0 2 2 "cuda" 2048);
    simpl; lia.
Defined.

(** ** [parallelize_llama]: what every call keeps, and its failures *)

Lemma for_named_children_names {S : Type}
    (body : TransformerBlock → S → result unit * TransformerBlock * S)
    (ls : list (string * TransformerBlock)) (s : S) :
  (for_named_children body ls s).1.2.*1 = ls.*1.
Proof.
  revert s. induction ls as [|[name b] ls IH]; intros s; [done|].
  cbn [for_named_children].
  destruct (body b s) as [[[[]|e] b'] s']; [|done].
  specialize (IH s').
  destruct (for_named_children body ls s') as [[r rest] s''].
  cbn [fst snd] in *. rewrite !fmap_cons. cbn [fst]. by rewrite IH.
Qed.



Lemma dp_branch_unfold (m : Transformer.t) (world_mesh : DeviceMesh)
    (job_config : JobConfig) (attrs : gmap string Z) :
  dp_branch m world_mesh job_config attrs
  = match dp_mesh_of world_mesh with
    | Raise e => (Raise e, m, attrs)
    | Ok dp_mesh =>
        if negb (bool_decide (mesh_dim_names dp_mesh = ["dp"]))
        then (Raise AssertionError, m, attrs)
        else
          let mp_policy :=
            {| param_dtype := float32; reduce_dtype := float32 |} in
          match for_named_children (dp_block dp_mesh mp_policy job_config)
                  (Transformer.layers m) attrs with
          | (Raise e, ls, attrs) => (Raise e, set_layers m ls, attrs)
          | (Ok _, ls, attrs) =>
              (Ok tt, fully_shard_root (set_layers m ls) dp_mesh mp_policy,
               attrs)
          end
    end.
Proof. reflexivity. Qed.

(** X12.  Whatever its arguments and whether it returns or raises,
    [parallelize_llama] leaves the model object with the same layers
    under the same names in the same order, the same embedding, norm and
    output projection; and the model it returns is that object. *)
Theorem parallelize_llama_keeps_structure (m : Transformer.t)
    (world_mesh : DeviceMesh) (parallel_dims : ParallelDims)
    (job_config : JobConfig) (attrs : gmap string Z) :
  let outcome :=
    parallelize_llama m world_mesh parallel_dims job_config attrs in
  let m' := outcome.1.2 in
  (Transformer.layers m').*1 = (Transformer.layers m).*1
  ∧ Transformer.tok_embeddings m' = Transformer.tok_embeddings m
  ∧ Transformer.norm m' = Transformer.norm m
  ∧ Transformer.output m' = Transformer.output m
  ∧ Transformer.vocab_size m' = Transformer.vocab_size m
  ∧ ∀ returned, outcome.1.1 = Ok returned → returned = m'.
Proof.
  intros outcome m'. subst m' outcome.
  assert (Htp : ∀ m0,
            let o := tp_branch m0 world_mesh parallel_dims job_config in
            (Transformer.layers o.2).*1 = (Transformer.layers m0).*1
            ∧ Transformer.tok_embeddings o.2 = Transformer.tok_embeddings m0
            ∧ Transformer.norm o.2 = Transformer.norm m0
            ∧ Transformer.output o.2 = Transformer.output m0
            ∧ Transformer.vocab_size o.2 = Transformer.vocab_size m0).
  { intros m0 o. subst o. unfold tp_branch.
    case_bool_decide; [done|].
    destruct (mesh_getitem world_mesh "tp") as [tp_mesh|e]; [|done].
    destruct (get_tp_parallel_strategy job_config) as [row col].
    simpl Transformer.layers.
    pose proof (for_named_children_names (tp_block tp_mesh row col)
                  (Transformer.layers m0) tt) as Hn.
    destruct (for_named_children _ _ _) as [[r ls] u]. done. }
  assert (Hdp : ∀ m0 a,
            let o := dp_branch m0 world_mesh job_config a in
            (Transformer.layers o.1.2).*1 = (Transformer.layers m0).*1
            ∧ Transformer.tok_embeddings o.1.2 = Transformer.tok_embeddings m0
            ∧ Transformer.norm o.1.2 = Transformer.norm m0
            ∧ Transformer.output o.1.2 = Transformer.output m0
            ∧ Transformer.vocab_size o.1.2 = Transformer.vocab_size m0).
  { intros m0 a o. subst o. rewrite dp_branch_unfold.
    destruct (dp_mesh_of world_mesh) as [dp_mesh|e]; [|done].
    destruct (negb _); [done|]. cbv zeta.
    pose proof (for_named_children_names
                  (dp_block dp_mesh
                     {| param_dtype := float32; reduce_dtype := float32 |}
                     job_config) (Transformer.layers m0) a) as Hn.
    destruct (for_named_children _ _ _) as [[[[]|e] ls] a']; done. }
  unfold parallelize_llama.
  destruct (tp_enabled parallel_dims).
  - specialize (Htp m).
    destruct (tp_branch m world_mesh parallel_dims job_config) as [[[]|e] m1];
      [|by destruct Htp as (? & ? & ? & ? & ?)].
    simpl in Htp. destruct Htp as (Hl & Ht & Hn & Ho & Hv).
    destruct (dp_enabled parallel_dims).
    + specialize (Hdp m1 attrs).
      destruct (dp_branch m1 world_mesh job_config attrs) as [[[[]|e] m2] a2];
        simpl in *; destruct Hdp as (Hl2 & Ht2 & Hn2 & Ho2 & Hv2);
        repeat split; try congruence.
    + simpl. repeat split; try congruence.
  - destruct (dp_enabled parallel_dims).
    + specialize (Hdp m attrs).
      destruct (dp_branch m world_mesh job_config attrs) as [[[[]|e] m2] a2];
        simpl in *; destruct Hdp as (Hl2 & Ht2 & Hn2 & Ho2 & Hv2);
        repeat split; try congruence.
    + simpl. repeat split; try congruence.
Qed.

(** What the tensor-parallel branch returns when nothing stops it. *)
Lemma tp_branch_Ok (m : Transformer.t) (world_mesh tp_mesh : DeviceMesh)
    (parallel_dims : ParallelDims) (job_config : JobConfig) :
  norm_type (model job_config) ≠ "fused_rmsnorm" →
  mesh_getitem world_mesh "tp" = Ok tp_mesh →
  mesh_size tp_mesh ≠ 0 →
  let fp8 := bool_decide (fp8_linear (training job_config) = "dynamic") in
  let loss_parallel := loss_parallel_enabled parallel_dims in
  tp_branch m world_mesh parallel_dims job_config
  = (Ok tt,
     set_layers
       (parallelize_module_root m tp_mesh
          [ ("tok_embeddings",
             RowwiseParallel false (Some Replicate) (Some (Shard 1)) true);
            ("output",
             ColwiseParallel fp8 (Some (Shard 1))
               (Some (if loss_parallel then Shard (-1) else Replicate))
               (negb loss_parallel));
            ("norm", SequenceParallel) ])
       ((λ nb,
           (nb.1,
            parallelize_module
              (set_n_kv_heads
                 (set_n_heads nb.2
                    (n_heads (attention nb.2) `div` mesh_size tp_mesh))
                 (n_kv_heads (attention nb.2) `div` mesh_size tp_mesh))
              tp_mesh
              (layer_plan (RowwiseParallel fp8) (ColwiseParallel fp8))))
          <$> Transformer.layers m)).
Proof.
  intros Hnorm Hmesh Hsize fp8 loss_parallel. subst fp8. unfold tp_branch.
  rewrite (bool_decide_eq_false_2 _ Hnorm), Hmesh.
  unfold get_tp_parallel_strategy.
  destruct (bool_decide (fp8_linear (training job_config) = "dynamic"));
    simpl Transformer.layers; by rewrite tp_loop_Ok.
Qed.




(** The only exception [checkpoint_wrapper] raises, and what it leaves. *)
Lemma checkpoint_wrapper_Raise (module : TransformerBlock)
    (config : ActivationCheckpoint) (attrs attrs' : gmap string Z) (e : exn) :
  checkpoint_wrapper module config attrs = (Raise e, attrs') →
  e = NotImplementedError ∧ attrs' = attrs.
Proof.
  unfold checkpoint_wrapper.
  destruct (bool_decide _ && bool_decide _); [discriminate|].
  destruct (bool_decide (mode config = "full")); [discriminate|].
  destruct (bool_decide (mode config = "selective")); simpl;
    [|by intros [= <- <-]].
  destruct (isdigit (selective_ac_option config)) eqn:Hd;
    [|by intros [= <- <-]].
  destruct (isdigit_int _ Hd) as (N & -> & HN).
  rewrite (proj2 (Z.leb_le 0 N) HN). simpl.
  by destruct (bool_decide (N = 0) || bool_decide (_ `mod` N = 0)).
Qed.

Lemma dp_block_Raise (dp_mesh : DeviceMesh) (mp_policy : MixedPrecisionPolicy)
    (job_config : JobConfig) (b b' : TransformerBlock)
    (attrs attrs' : gmap string Z) (e : exn) :
  dp_block dp_mesh mp_policy job_config b attrs = (Raise e, b', attrs') →
  e = NotImplementedError ∧ b' = b ∧ attrs' = attrs.
Proof.
  unfold dp_block.
  destruct (bool_decide _ || bool_decide _); [|discriminate].
  destruct (checkpoint_wrapper _ _ _) as [[w|e'] a] eqn:Hcw; [discriminate|].
  intros [= <- <- <-].
  by apply checkpoint_wrapper_Raise in Hcw as [-> ->].
Qed.

Lemma dp_loop_Raise (dp_mesh : DeviceMesh) (mp_policy : MixedPrecisionPolicy)
    (job_config : JobConfig) (ls ls' : list (string * TransformerBlock))
    (attrs attrs' : gmap string Z) (e : exn) :
  for_named_children (dp_block dp_mesh mp_policy job_config) ls attrs
  = (Raise e, ls', attrs') →
  e = NotImplementedError.
Proof.
  revert ls' attrs. induction ls as [|[name b] ls IH]; intros ls' attrs;
    [discriminate|].
  cbn [for_named_children].
  destruct (dp_block _ _ _ b attrs) as [[[[]|e0] b0] a0] eqn:Hb.
  - destruct (for_named_children _ ls a0) as [[r rest] a1] eqn:Hrest.
    intros [= -> <- <-]. by apply (IH _ _ Hrest).
  - intros [= <- <- <-]. by apply dp_block_Raise in Hb as [-> _].
Qed.

Lemma dp_mesh_of_cases (world_mesh : DeviceMesh) :
  (1 < ndim world_mesh
   ∧ ((∃ d, dp_mesh_of world_mesh = Ok [d] ∧ dim_name d = "dp")
      ∨ (dp_mesh_of world_mesh = Raise KeyError
         ∧ "dp" ∉ mesh_dim_names world_mesh)))
  ∨ (ndim world_mesh ≤ 1 ∧ dp_mesh_of world_mesh = Ok world_mesh).
Proof.
  unfold dp_mesh_of. case_bool_decide as Hnd; [left|right; split; [lia|done]].
  split; [done|].
  destruct (mesh_getitem world_mesh "dp") as [sub|e] eqn:Hget.
  - apply mesh_getitem_inv in Hget as (d & -> & Hname & _). left. eauto.
  - apply mesh_getitem_Raise in Hget as [-> Hno]. right. done.
Qed.

(** X14.  With data parallelism on and tensor parallelism off, the
    data-parallel branch stops before changing anything when it does not
    find its mesh: a world mesh of several axes without a ["dp"] axis is a
    [KeyError], and the assertion on the axis names fails exactly for a
    world mesh of at most one axis that is not named ["dp"]. *)
Theorem dp_mesh_errors (m : Transformer.t) (world_mesh : DeviceMesh)
    (parallel_dims : ParallelDims) (job_config : JobConfig)
    (attrs : gmap string Z) :
  tp_enabled parallel_dims = false →
  dp_enabled parallel_dims = true →
  let r := parallelize_llama m world_mesh parallel_dims job_config attrs in
  (1 < ndim world_mesh → "dp" ∉ mesh_dim_names world_mesh →
   r = (Raise KeyError, m, attrs))
  ∧ (ndim world_mesh ≤ 1 → mesh_dim_names world_mesh ≠ ["dp"] →
     r = (Raise AssertionError, m, attrs))
  ∧ (r.1.1 = Raise AssertionError →
     ndim world_mesh ≤ 1 ∧ mesh_dim_names world_mesh ≠ ["dp"]).
Proof.
  intros Htp Hdp r. subst r. unfold parallelize_llama.
  rewrite Htp, Hdp, dp_branch_unfold.
  destruct (dp_mesh_of_cases world_mesh)
    as [[Hnd [(d & Hmesh & Hname)|[Hmesh Hno]]]|[Hnd Hmesh]]; rewrite Hmesh.
  - rewrite bool_decide_eq_true_2 by (by simpl; rewrite Hname).
    cbv zeta. cbn [negb]. split; [|split]; try lia.
    + intros _ Hno. exfalso. apply Hno.
      unfold dp_mesh_of in Hmesh. rewrite bool_decide_eq_true_2 in Hmesh by done.
      apply mesh_getitem_inv in Hmesh as (d' & _ & Hname' & Hin).
      unfold mesh_dim_names. rewrite list_elem_of_fmap. by exists d'.
    + destruct (for_named_children _ _ _) as [[[[]|e] ls] a'] eqn:Hloop;
        simpl; [discriminate|].
      intros [= ->]. by apply dp_loop_Raise in Hloop.
  - split; [done|]. split; [lia|]. simpl. discriminate.
  - split; [lia|]. case_bool_decide as Hnames; cbn [negb].
    + split; [done|]. cbv zeta.
      destruct (for_named_children _ _ _) as [[[[]|e] ls] a'] eqn:Hloop;
        simpl; [discriminate|].
      intros [= ->]. by apply dp_loop_Raise in Hloop.
    + split; [done|]. intros _. done.
Qed.

Lemma dp_mesh_errors_witness :
  parallelize_llama (sample_model 2 32) (sample_mesh "pp" 2 0)
    (sample_dims 2 1 1) (sample_config "full" "" "manual" "1f1b") ∅
  = (Raise AssertionError, sample_model 2 32, ∅).
Proof.
  destruct (dp_mesh_errors (sample_model 2 32) (sample_mesh "pp" 2 0)
              (sample_dims 2 1 1) (sample_config "full" "" "manual" "1f1b") ∅
              eq_refl eq_refl) as (_ & Hassert & _).
  apply Hassert; [unfold ndim; simpl length; lia | discriminate].
Defined.








(** X17.  Tensor parallelism is not idempotent: a second call of
    [parallelize_llama] on the model a first call returned divides the
    head counts of every block by the size of the tensor-parallel mesh a
    second time, and applies the plans a second time. *)
Theorem tensor_parallel_twice (m : Transformer.t)
    (world_mesh tp_mesh : DeviceMesh) (parallel_dims : ParallelDims)
    (job_config : JobConfig) (attrs : gmap string Z) :
  tp_enabled parallel_dims = true →
  dp_enabled parallel_dims = false →
  norm_type (model job_config) ≠ "fused_rmsnorm" →
  mesh_getitem world_mesh "tp" = Ok tp_mesh →
  mesh_size tp_mesh ≠ 0 →
  ∃ m1 m2,
    parallelize_llama m world_mesh parallel_dims job_config attrs
    = (Ok m1, m1, attrs)
    ∧ parallelize_llama m1 world_mesh parallel_dims job_config attrs
      = (Ok m2, m2, attrs)
    ∧ length (Transformer.root_plans m2)
      = S (S (length (Transformer.root_plans m)))
    ∧ ∀ k name b,
        Transformer.layers m !! k = Some (name, b) →
        ∃ b2,
          Transformer.layers m2 !! k = Some (name, b2)
          ∧ n_heads (attention b2)
            = (n_heads (attention b) `div` mesh_size tp_mesh)
                `div` mesh_size tp_mesh
          ∧ n_kv_heads (attention b2)
            = (n_kv_heads (attention b) `div` mesh_size tp_mesh)
                `div` mesh_size tp_mesh
          ∧ length (block_plans b2) = S (S (length (block_plans b))).
Proof.
  intros Htp Hdp Hnorm Hmesh Hsize.
  unfold parallelize_llama.
  rewrite Htp, Hdp, !(tp_branch_Ok _ _ tp_mesh) by done.
  eexists _, _. split; [reflexivity|].
  rewrite !(tp_branch_Ok _ _ tp_mesh) by done.
  split; [reflexivity|]. simpl. split; [done|].
  intros k name b Hk. rewrite !list_lookup_fmap, Hk. simpl.
  eexists. split; [reflexivity|]. done.
Qed.

Lemma tensor_parallel_twice_witness :
  ∃ m1 m2 b2,
    parallelize_llama (sample_model 1 32) (sample_mesh "tp" 4 0)
      (sample_dims 1 4 1) (sample_config "none" "" "manual" "1f1b") ∅
    = (Ok m1, m1, ∅)
    ∧ parallelize_llama m1 (sample_mesh "tp" 4 0)
        (sample_dims 1 4 1) (sample_config "none" "" "manual" "1f1b") ∅
      = (Ok m2, m2, ∅)
    ∧ Transformer.layers m2 !! 0%nat = Some ("0", b2)
    ∧ n_heads (attention b2) = 2.
Proof.
  destruct (tensor_parallel_twice (sample_model 1 32) (sample_mesh "tp" 4 0)
              (sample_mesh "tp" 4 0) (sample_dims 1 4 1)
              (sample_config "none" "" "manual" "1f1b") ∅)
    as (m1 & m2 & H1 & H2 & _ & Hblocks);
    [reflexivity | reflexivity | discriminate | reflexivity | discriminate |].
  destruct (Hblocks 0%nat "0" (sample_block 32) eq_refl)
    as (b2 & Hb2 & Hh & _).
  exists m1, m2, b2. repeat split; assumption.
Defined.

(** X18.  The float8 classes chosen by [fp8_linear = "dynamic"] reach the
    output projection and the seven linear layers of every block, and
    never the embedding, whose rule is the standard row-wise one whatever
    the configuration; with any other value of [fp8_linear] no rule is a
    float8 one. *)
Theorem float8_reach (m : Transformer.t) (world_mesh tp_mesh : DeviceMesh)
    (parallel_dims : ParallelDims) (job_config : JobConfig) :
  norm_type (model job_config) ≠ "fused_rmsnorm" →
  mesh_getitem world_mesh "tp" = Ok tp_mesh →
  mesh_size tp_mesh ≠ 0 →
  let fp8 := bool_decide (fp8_linear (training job_config) = "dynamic") in
  ∃ m' root_plan,
    tp_branch m world_mesh parallel_dims job_config = (Ok tt, m')
    ∧ Transformer.root_plans m'
      = (tp_mesh, root_plan) :: Transformer.root_plans m
    ∧ (∀ name style,
         (name, style) ∈ root_plan →
         uses_float8 style = fp8 && bool_decide (name = "output"))
    ∧ ∀ k name b,
        Transformer.layers m' !! k = Some (name, b) →
        ∃ block_plan rest,
          block_plans b = (tp_mesh, block_plan) :: rest
          ∧ ∀ name style,
              (name, style) ∈ block_plan →
              uses_float8 style
              = fp8 &&
                bool_decide
                  (name ∈ ["attention.wq"; "attention.wk"; "attention.wv";
                           "attention.wo"; "feed_forward.w1";
                           "feed_forward.w2"; "feed_forward.w3"]).
Proof.
  intros Hnorm Hmesh Hsize fp8.
  rewrite (tp_branch_Ok _ _ tp_mesh) by done. fold fp8.
  eexists _, _. split; [reflexivity|]. split; [reflexivity|]. split.
  - intros name style Hin.
    repeat (apply elem_of_cons in Hin as [[= -> ->]|Hin];
            [by destruct fp8|]).
    by apply not_elem_of_nil in Hin.
  - intros k name b Hk. simpl in Hk. rewrite list_lookup_fmap in Hk.
    destruct (Transformer.layers m !! k) as [[name0 b0]|]; [|done].
    injection Hk as <- <-. eexists _, _. split; [reflexivity|].
    intros name style Hin.
    repeat (apply elem_of_cons in Hin as [[= -> ->]|Hin];
            [by destruct fp8|]).
    by apply not_elem_of_nil in Hin.
Qed.

Lemma float8_reach_witness :
  ∃ m' root_plan,
    tp_branch (sample_model 1 32) (sample_mesh "tp" 4 0) (sample_dims 1 4 1)
      (sample_config "none" "" "manual" "1f1b") = (Ok tt, m')
    ∧ Transformer.root_plans m' = [(sample_mesh "tp" 4 0, root_plan)]
    ∧ ∀ name style, (name, style) ∈ root_plan → uses_float8 style = false.
Proof.
  destruct (float8_reach (sample_model 1 32) (sample_mesh "tp" 4 0)
              (sample_mesh "tp" 4 0) (sample_dims 1 4 1)
              (sample_config "none" "" "manual" "1f1b"))
    as (m' & root_plan & Hrun & Hplans & Hroot & _);
    [discriminate | reflexivity | discriminate |].
  exists m', root_plan. split; [exact Hrun|]. split; [exact Hplans|].
  intros name style Hin. exact (Hroot name style Hin).
Defined.

(** ** The two partitioners: the model returned with a stage *)

(** X19.  Whichever partitioner [apply_pipeline_parallelism] selects, the
    model it returns next to a stage is the module of that stage, and the
    index of the stage is the local rank of the process on the ["pp"] axis
    of the mesh: for the manual partitioner the chunk the stage was built
    on, with [num_stages] the size of that axis, for the traced one the
    stage module of the pipe at that rank. *)
Theorem stage_model_is_stage_module (m : Transformer.t)
    (world_mesh : DeviceMesh) (parallel_dims : ParallelDims)
    (job_config : JobConfig) (device : string) (model_config : ModelConfig.t)
    (st : Stage) (sm : StageModel) :
  apply_pipeline_parallelism m world_mesh parallel_dims job_config device
    model_config = Ok (st, sm) →
  ∃ d,
    mesh_getitem world_mesh "pp" = Ok [d]
    ∧ match st with
      | ManualStage s =>
          pipeline_parallel_split_mode (experimental job_config) = "manual"
          ∧ sm = ChunkModel (manual_module s)
          ∧ manual_stage_index s = dim_rank d
          ∧ manual_num_stages s = dim_size d
      | TracedStage s =>
          pipeline_parallel_split_mode (experimental job_config) = "tracer"
          ∧ sm = StageModuleOf (traced_pipe s) (traced_stage_index s)
          ∧ traced_stage_index s = dim_rank d
          ∧ pipe_model (traced_pipe s) = m
      end.
Proof.
  unfold apply_pipeline_parallelism. intros H.
  case_bool_decide as Hmanual.
  - apply manual_Ok_inv in H
      as (pp_mesh & pp_rank & chunk & input & output
          & Hmesh & Hrank & _ & -> & ->).
    destruct (mesh_getitem_inv _ _ _ Hmesh) as (d & -> & _ & _).
    injection Hrank as <-. exists d. split; [done|]. simpl.
    by rewrite Z.mul_1_r.
  - case_bool_decide as Htracer; [|discriminate].
    apply tracer_Ok_inv in H
      as (d & pipe & Hmesh & _ & Hmodel & _ & _ & -> & ->).
    exists d. done.
Qed.

Lemma stage_model_is_stage_module_witness :
  ∃ s sm,
    apply_pipeline_parallelism (sample_model 8 32) (sample_mesh "pp" 2 0)
      (sample_dims 1 1 2) (sample_config "none" "" "manual" "1f1b") "cuda"
      sample_model_config
    = Ok (ManualStage s, sm)
    ∧ sm = ChunkModel (manual_module s).
Proof.
  eexists _, _. split; [reflexivity|].
  destruct (stage_model_is_stage_module (sample_model 8 32)
              (sample_mesh "pp" 2 0) (sample_dims 1 1 2)
              (sample_config "none" "" "manual" "1f1b") "cuda"
              sample_model_config _ _ eq_refl) as (d & _ & _ & Hsm & _).
  exact Hsm.
Defined.

(** ** The operation-based policy: how much it saves *)

Lemma odd_step (c : Z) :
  (if Z.odd (c + 1) then 1 else 0) = (c + 2) `div` 2 - (c + 1) `div` 2.
Proof.
  pose proof (Zmod_odd (c + 1)) as Hodd.
  destruct (Z.odd (c + 1)); Z.div_mod_to_equations; lia.
Qed.

(** The matrix multiplications saved in a pass in one mode, from any
    count so far. *)
Lemma saved_mm_from (ops : list string) (mode : string)
    (meta : gmap string Z) :
  let c := getitem_default meta (mode +:+ "_mm_count") in
  let n := Z.of_nat (length (filter (λ f, f = aten_mm_default) ops)) in
  Z.of_nat
    (length
       (filter (λ p, p.1 = aten_mm_default ∧ p.2 = true)
          (zip ops (policy_decisions meta ((λ f, (mode, f)) <$> ops)))))
  = (c + n + 1) `div` 2 - (c + 1) `div` 2.
Proof.
  revert meta. induction ops as [|f ops IH]; intros meta c n.
  - subst c n. simpl. rewrite Z.add_0_r, Z.sub_diag. done.
  - subst c n. cbv zeta in IH. rewrite fmap_cons, policy_decisions_cons.
    cbn [zip zip_with]. rewrite !filter_cons.
    destruct (decide (f = aten_mm_default)) as [->|Hne].
    + rewrite custom_policy_mm. cbn [fst snd].
      rewrite (length_cons (filter _ ops)), Nat2Z.inj_succ.
      pose proof (odd_step (getitem_default meta (mode +:+ "_mm_count")))
        as Hstep.
      destruct (Z.odd (getitem_default meta (mode +:+ "_mm_count") + 1)).
      * rewrite decide_True by done. rewrite length_cons, Nat2Z.inj_succ.
        rewrite IH, getitem_default_insert_eq.
        Z.div_mod_to_equations; lia.
      * rewrite decide_False by (intros [_ ?]; done).
        rewrite IH, getitem_default_insert_eq.
        Z.div_mod_to_equations; lia.
    + rewrite custom_policy_other by done. cbn [fst snd].
      rewrite decide_False by (intros [? _]; done).
      rewrite IH. done.
Qed.

(** Every matrix multiplication of a pass is decided one way or the
    other. *)
Lemma mm_decisions_split (ops : list string) (mode : string)
    (meta : gmap string Z) :
  Z.of_nat
    (length
       (filter (λ p, p.1 = aten_mm_default ∧ p.2 = true)
          (zip ops (policy_decisions meta ((λ f, (mode, f)) <$> ops)))))
  + Z.of_nat
      (length
         (filter (λ p, p.1 = aten_mm_default ∧ p.2 = false)
            (zip ops (policy_decisions meta ((λ f, (mode, f)) <$> ops)))))
  = Z.of_nat (length (filter (λ f, f = aten_mm_default) ops)).
Proof.
  revert meta. induction ops as [|f ops IH]; intros meta; [done|].
  rewrite fmap_cons, policy_decisions_cons. cbn [zip zip_with].
  rewrite !filter_cons. specialize (IH (_custom_policy meta mode f).2).
  destruct (decide (f = aten_mm_default)) as [Hf|Hf]; cbn [fst snd].
  - destruct ((_custom_policy meta mode f).1).
    + rewrite decide_True, decide_False by (done || intros [_ ?]; done).
      rewrite !length_cons, !Nat2Z.inj_succ. lia.
    + rewrite decide_False, decide_True by (done || intros [_ ?]; done).
      rewrite !length_cons, !Nat2Z.inj_succ. lia.
  - rewrite !decide_False by (intros [? _]; done). done.
Qed.

(** X20.  Of the matrix multiplications of a pass through a checkpointed
    block, whatever other operators come between them, the policy saves
    every other one starting with the first: of [n] of them it saves
    [(n + 1) // 2] and has [n // 2] recomputed. *)
Theorem half_of_mm_saved (ops : list string) (mode : string) :
  let n := Z.of_nat (length (filter (λ f, f = aten_mm_default) ops)) in
  let decisions :=
    zip ops (selective_checkpointing_context_fn ((λ f, (mode, f)) <$> ops)) in
  Z.of_nat
    (length (filter (λ p, p.1 = aten_mm_default ∧ p.2 = true) decisions))
  = (n + 1) `div` 2
  ∧ Z.of_nat
      (length (filter (λ p, p.1 = aten_mm_default ∧ p.2 = false) decisions))
    = n `div` 2.
Proof.
  intros n decisions. subst decisions n.
  unfold selective_checkpointing_context_fn.
  pose proof (saved_mm_from ops mode ∅) as Hsaved. cbv zeta in Hsaved.
  pose proof (mm_decisions_split ops mode ∅) as Hall.
  unfold getitem_default in Hsaved. rewrite lookup_empty in Hsaved.
  cbn [default] in Hsaved. unfold id in Hsaved.
  rewrite Z.add_0_l in Hsaved.
  change ((0 + 1) `div` 2) with 0 in Hsaved. rewrite Z.sub_0_r in Hsaved.
  split; [exact Hsaved|].
  rewrite Hsaved in Hall. Z.div_mod_to_equations; lia.
Qed.
